(** * BrightSmile Dental webhook: the appointment registry and its dispatcher

    A shallow embedding of [src/webhook_server.py].  The module keeps two
    globals, [appointments] (a dict of dicts keyed by lower-cased patient
    name) and [available_slots] (a list of strings), and one function,
    [handle_webhook_request], that both POST routes delegate to.

    Python values that arrive in the request body are modelled by [json];
    the body of the [try] block is a computation in a small state and
    exception monad, and the [except Exception] clause is the function
    that runs it.  Console logging ([print]) and the HTTP transport are
    not modelled.

    A [string] stands for a Python [str] through its UTF-8 bytes, so
    equality, concatenation, emptiness and the substring test are those
    of the [str].  [str.split] is written out, with all of Python's
    whitespace characters.  [str.lower] and [str.title] depend on the
    Unicode character database: they are a parameter of the model
    ([PyStr.CaseMapping]), and every general statement below holds for
    each choice of them, Python's among them. *)

From Stdlib Require Import ZArith Ascii String SpecFloat.
From stdpp Require Import gmap strings list fin_maps.

Set Warnings "-register-all".
Open Scope string_scope.

(** ** Python's [str] methods used by the handler *)

Module PyStr.

Definition code (c : ascii) : N := N_of_ascii c.

(** The case of the ASCII letters, for [ascii_cases] below. *)
Definition is_upper (c : ascii) : bool :=
  (65 <=? code c)%N && (code c <=? 90)%N.

Definition is_lower (c : ascii) : bool :=
  (97 <=? code c)%N && (code c <=? 122)%N.

Definition is_cased (c : ascii) : bool := is_upper c || is_lower c.

Definition lower_char (c : ascii) : ascii :=
  if is_upper c then ascii_of_N (code c + 32) else c.

Definition upper_char (c : ascii) : ascii :=
  if is_lower c then ascii_of_N (code c - 32) else c.

(** [s.lower()] for a string of ASCII characters. *)
Fixpoint ascii_lower (s : string) : string :=
  match s with
  | EmptyString => EmptyString
  | String c s' => String (lower_char c) (ascii_lower s')
  end.

(** [s.title()] for a string of ASCII characters: a character that
    follows a cased one is lower-cased, any other is title-cased. *)
Fixpoint title_from (previous_is_cased : bool) (s : string) : string :=
  match s with
  | EmptyString => EmptyString
  | String c s' =>
      String (if previous_is_cased then lower_char c else upper_char c)
             (title_from (is_cased c) s')
  end.

Definition ascii_title (s : string) : string := title_from false s.

(** Python's case mappings.  [str.lower] and [str.title] work from the
    Unicode character database, which is no part of the program: they
    are a parameter, with the two facts about [lower] that are used. *)
Class CaseMapping : Type := {
  lower : string -> string;
  title : string -> string;
  lower_empty : lower EmptyString = EmptyString;
  lower_idempotent : forall s, lower (lower s) = lower s
}.

(** The case mappings on strings of ASCII characters, where they agree
    with Python's. *)
Definition ascii_cases : CaseMapping :=
  {| lower := ascii_lower;
     title := ascii_title;
     lower_empty := eq_refl;
     lower_idempotent :=
       ltac:(intros s; induction s as [|c s IH]; simpl;
             [ reflexivity
             | rewrite IH; f_equal; unfold lower_char;
               destruct (is_upper c) eqn:Hc; [|now rewrite Hc];
               unfold is_upper, code in *;
               apply andb_true_iff in Hc as [H1 H2];
               apply N.leb_le in H1, H2;
               rewrite N_ascii_embedding by lia;
               replace (N_of_ascii c + 32 <=? 90)%N with false
                 by (symmetry; apply N.leb_gt; lia);
               now rewrite andb_false_r ]) |}.

(** Whitespace for [str.split()], by the UTF-8 bytes of the character.
    One byte: TAB, LF, VT, FF, CR, FS, GS, RS, US and the space. *)
Definition space1 (c : ascii) : bool :=
  ((9 <=? code c)%N && (code c <=? 13)%N)
  || ((28 <=? code c)%N && (code c <=? 32)%N).

(** Two bytes: U+0085 and U+00A0. *)
Definition space2 (c1 c2 : ascii) : bool :=
  (code c1 =? 0xc2)%N && ((code c2 =? 0x85)%N || (code c2 =? 0xa0)%N).

(** Three bytes: U+1680, U+2000 to U+200A, U+2028, U+2029, U+202F,
    U+205F and U+3000. *)
Definition space3 (c1 c2 c3 : ascii) : bool :=
  ((code c1 =? 0xe1)%N && (code c2 =? 0x9a)%N && (code c3 =? 0x80)%N)
  || ((code c1 =? 0xe2)%N && (code c2 =? 0x80)%N
      && (((0x80 <=? code c3)%N && (code c3 <=? 0x8a)%N)
          || (code c3 =? 0xa8)%N || (code c3 =? 0xa9)%N
          || (code c3 =? 0xaf)%N))
  || ((code c1 =? 0xe2)%N && (code c2 =? 0x81)%N && (code c3 =? 0x9f)%N)
  || ((code c1 =? 0xe3)%N && (code c2 =? 0x80)%N && (code c3 =? 0x80)%N).

(** The number of bytes of the whitespace character [s] starts with,
    0 when it starts with none. *)
Definition space_len (s : string) : nat :=
  match s with
  | String c1 r1 =>
      if space1 c1 then 1
      else
        match r1 with
        | String c2 r2 =>
            if space2 c1 c2 then 2
            else
              match r2 with
              | String c3 _ => if space3 c1 c2 c3 then 3 else 0
              | EmptyString => 0
              end
        | EmptyString => 0
        end
  | EmptyString => 0
  end.

(** [s.split()]: maximal runs of non-whitespace characters, in order;
    [w] is the run being read, [skip] counts the bytes still to pass of
    the whitespace character being read. *)
Definition flush (w : string) (rest : list string) : list string :=
  match w with
  | EmptyString => rest
  | _ => w :: rest
  end.

Fixpoint split_from (skip : nat) (w : string) (s : string) : list string :=
  match s with
  | EmptyString => flush w []
  | String c s' =>
      match skip with
      | S k => split_from k w s'
      | O =>
          match space_len s with
          | O => split_from O (w +:+ String c EmptyString) s'
          | S k => flush w (split_from k EmptyString s')
          end
      end
  end.

Definition split (s : string) : list string := split_from 0 EmptyString s.

(** [sep.join(l)] *)
Fixpoint join (sep : string) (l : list string) : string :=
  match l with
  | [] => EmptyString
  | [x] => x
  | x :: rest => x +:+ sep +:+ join sep rest
  end.

(** [sub in s] for two strings. *)
Definition contains (sub s : string) : bool :=
  match String.index 0 sub s with
  | Some _ => true
  | None => false
  end.

(** Every character of [s] is whitespace ([s] may be empty). *)
Fixpoint only_space_from (skip : nat) (s : string) : bool :=
  match s with
  | EmptyString => true
  | String c s' =>
      match skip with
      | S k => only_space_from k s'
      | O =>
          match space_len s with
          | O => false
          | S k => only_space_from k s'
          end
      end
  end.

Definition only_space (s : string) : bool := only_space_from 0 s.

(** No whitespace character starts anywhere in [s]. *)
Fixpoint no_space (s : string) : bool :=
  match s with
  | EmptyString => true
  | String c s' => Nat.eqb (space_len s) 0 && no_space s'
  end.

(** No whitespace character starts in [w] when [w] is followed by
    [s]. *)
Fixpoint clear_before (w s : string) : bool :=
  match w with
  | EmptyString => true
  | String c w' =>
      Nat.eqb (space_len (w +:+ s)) 0 && clear_before w' s
  end.

(** The UTF-8 bytes of U+00A0, the no-break space, and of U+2003, the
    em space. *)
Definition nbsp : string :=
  String (ascii_of_N 0xc2) (String (ascii_of_N 0xa0) EmptyString).

Definition em_space : string :=
  String (ascii_of_N 0xe2)
    (String (ascii_of_N 0x80) (String (ascii_of_N 0x83) EmptyString)).

(** A token: non-empty and free of whitespace. *)
Definition is_token (t : string) : Prop := t <> EmptyString /\ no_space t = true.

End PyStr.

(** ** Values of a decoded request body *)

Inductive json : Type :=
| JNull
| JBool (b : bool)
| JInt (z : Z)
| JFloat (f : spec_float)
| JStr (s : string)
| JArr (l : list json)
| JObj (m : gmap string json).

(** Abbreviation for a request payload: the dict a JSON object decodes to. *)
Abbreviation payload := (gmap string json).

(** Python truth value of a decoded JSON value. *)
Definition truthy (v : json) : bool :=
  match v with
  | JNull => false
  | JBool b => b
  | JInt z => negb (z =? 0)%Z
  | JFloat (S754_zero _) => false
  | JFloat _ => true
  | JStr s => negb (String.eqb s "")
  | JArr l => negb (Nat.eqb (length l) 0)
  | JObj m => negb (Nat.eqb (size m) 0)
  end.

(** ** Exceptions and the outcome of a computation *)

Inductive exn : Type := AttributeError | IndexError | KeyError | TypeError.

Inductive outcome (A : Type) : Type :=
| Return (a : A)
| Raise (e : exn).
Arguments Return {A} a.
Arguments Raise {A} e.

(** ** The module's globals *)

(** A value of [appointments] is a dict with the four keys below: the
    literal creates both of them so, and the handler only ever assigns to
    these keys and deletes none, so a record stands for the inner dict. *)
Record AppointmentRecord : Type := mkApt {
  date : string;
  time : string;
  doctor : string;
  status : string
}.

Record State : Type := mkState {
  appointments : gmap string AppointmentRecord;
  available_slots : list string
}.

Definition john_smith : AppointmentRecord :=
  mkApt "2025-07-30" "3:00 PM" "Dr. Clark" "scheduled".

Definition jane_doe : AppointmentRecord :=
  mkApt "2025-07-29" "10:00 AM" "Dr. Martinez" "scheduled".

Definition initial_appointments : gmap string AppointmentRecord :=
  {[ "john smith" := john_smith; "jane doe" := jane_doe ]}.

Definition initial_slots : list string :=
  [ "2025-07-29 2:00 PM"; "2025-07-30 10:00 AM"; "2025-07-30 4:00 PM";
    "2025-07-31 9:00 AM"; "2025-07-31 1:00 PM"; "2025-08-01 11:00 AM" ].

Definition initial_state : State := mkState initial_appointments initial_slots.

(** ** State and exception monad

    A raised exception keeps the state reached so far, as in Python. *)

Definition M (A : Type) : Type := State -> outcome A * State.

Definition ret {A} (a : A) : M A := fun st => (Return a, st).

Definition raise {A} (e : exn) : M A := fun st => (Raise e, st).

Definition bind {A B} (c : M A) (k : A -> M B) : M B :=
  fun st =>
    match c st with
    | (Return a, st') => k a st'
    | (Raise e, st') => (Raise e, st')
    end.

Definition lift {A} (o : outcome A) : M A := fun st => (o, st).

Notation "'let*' x ':=' c 'in' k" := (bind c (fun x => k))
  (at level 10, x name, c at level 100, k at level 200).

Section Model.

Context {cases : PyStr.CaseMapping}.

(** ** Python operations on the decoded body *)

(** [data = request.get_json() or {}] *)
Definition or_empty_dict (v : json) : json :=
  if truthy v then v else JObj ∅.

Definition is_str (key : string) (v : json) : bool :=
  match v with
  | JStr s => String.eqb key s
  | _ => false
  end.

(** [key in d] for a dict [d]. *)
Definition has_key {V : Type} (key : string) (d : gmap string V) : bool :=
  match d !! key with
  | Some _ => true
  | None => false
  end.

(** [key in data]: key membership for a dict, element membership for a
    list, substring test for a string; other values are not iterable. *)
Definition py_in (key : string) (data : json) : outcome bool :=
  match data with
  | JObj m => Return (has_key key m)
  | JArr l => Return (existsb (is_str key) l)
  | JStr s => Return (PyStr.contains key s)
  | _ => Raise TypeError
  end.

(** [data.get(key, default)]: only a dict has [get]. *)
Definition py_get (data : json) (key : string) (default : json)
  : outcome json :=
  match data with
  | JObj m => Return (from_option id default (m !! key))
  | _ => Raise AttributeError
  end.

(** [v.lower()]: only a string has [lower]. *)
Definition py_lower (v : json) : outcome string :=
  match v with
  | JStr s => Return (PyStr.lower s)
  | _ => Raise AttributeError
  end.

(** [v.split]: the attribute exists only when [v] is a string, which is
    then the receiver of the call. *)
Definition py_split_of (v : json) : outcome string :=
  match v with
  | JStr s => Return s
  | _ => Raise AttributeError
  end.

(** [l[0]] *)
Definition py_first (l : list string) : outcome string :=
  match l with
  | x :: _ => Return x
  | [] => Raise IndexError
  end.

(** [l[1:]] *)
Definition py_rest (l : list string) : list string := tail l.

(** ** Reads and writes of [appointments] *)

(** [name in appointments] *)
Definition known (name : string) : M bool :=
  fun st => (Return (has_key name (appointments st)), st).

(** [appointments[name]] *)
Definition getitem (name : string) : M AppointmentRecord :=
  fun st =>
    match appointments st !! name with
    | Some apt => (Return apt, st)
    | None => (Raise KeyError, st)
    end.

Definition set_date (v : string) (apt : AppointmentRecord) :=
  mkApt v (time apt) (doctor apt) (status apt).
Definition set_time (v : string) (apt : AppointmentRecord) :=
  mkApt (date apt) v (doctor apt) (status apt).
Definition set_status (v : string) (apt : AppointmentRecord) :=
  mkApt (date apt) (time apt) (doctor apt) v.

(** [appointments[name][field] = v], with [upd] the field's setter: the
    record is looked up, then written in place. *)
Definition setitem (name : string)
  (upd : AppointmentRecord -> AppointmentRecord) : M unit :=
  fun st =>
    match appointments st !! name with
    | Some apt =>
        (Return tt,
         mkState (<[name := upd apt]> (appointments st)) (available_slots st))
    | None => (Raise KeyError, st)
    end.

(** [available_slots[:3]] *)
Definition first_slots : M (list string) :=
  fun st => (Return (take 3 (available_slots st)), st).

(** ** Responses *)

Record Response : Type := mkResponse {
  body : json;
  status_code : Z
}.

(** [jsonify(d)] with the default transport status. *)
Definition jsonify (d : gmap string json) : Response := mkResponse (JObj d) 200.

Definition validation_ack : gmap string json :=
  {[ "status" := JStr "received";
     "message" := JStr "Telnyx webhook received successfully" ]}.

Definition lookup_found (name : string) (apt : AppointmentRecord)
  : gmap string json :=
  {[ "status" := JStr "success";
     "message" := JStr ("Found appointment for " +:+ PyStr.title name);
     "appointment" :=
       JObj {[ "date" := JStr (date apt);
               "time" := JStr (time apt);
               "doctor" := JStr (doctor apt);
               "status" := JStr (status apt) ]} ]}.

Definition lookup_not_found (name : string) : gmap string json :=
  {[ "status" := JStr "not_found";
     "message" := JStr ("No appointment found for " +:+ PyStr.title name) ]}.

Definition availability (slots : list string) : gmap string json :=
  {[ "status" := JStr "success";
     "available_slots" := JArr (JStr <$> slots);
     "message" := JStr "Here are some available times" ]}.

Definition confirmed_ok (name : string) : gmap string json :=
  {[ "status" := JStr "success";
     "message" := JStr ("Appointment confirmed for " +:+ PyStr.title name) ]}.

Definition cancelled_ok (name : string) : gmap string json :=
  {[ "status" := JStr "success";
     "message" := JStr ("Appointment cancelled for " +:+ PyStr.title name) ]}.

Definition appointment_not_found : gmap string json :=
  {[ "status" := JStr "error";
     "message" := JStr "Appointment not found" ]}.

Definition rescheduled_ok (name new_time : string) : gmap string json :=
  {[ "status" := JStr "success";
     "message" := JStr ("Appointment rescheduled for " +:+ PyStr.title name
                        +:+ " to " +:+ new_time) ]}.

Definition reschedule_failed : gmap string json :=
  {[ "status" := JStr "error";
     "message" := JStr "Could not reschedule appointment" ]}.

Definition unknown_action (action : string) : gmap string json :=
  {[ "status" := JStr "error";
     "message" := JStr ("Unknown action: " +:+ action) ]}.

Definition internal_error : gmap string json :=
  {[ "status" := JStr "error";
     "message" := JStr "Internal server error" ]}.

(** ** The handler *)

(** The five branches on [action], after [action] and [patient_name]
    have been read. *)
Definition branch (data : json) (action patient_name : string) : M Response :=
  if decide (action = "lookup_appointment") then
    let* found := known patient_name in
    if found then
      let* apt := getitem patient_name in
      ret (jsonify (lookup_found patient_name apt))
    else ret (jsonify (lookup_not_found patient_name))
  else if decide (action = "check_availability") then
    let* slots := first_slots in
    ret (jsonify (availability slots))
  else if decide (action = "confirm_appointment") then
    let* found := known patient_name in
    if found then
      let* u := setitem patient_name (set_status "confirmed") in
      ret (jsonify (confirmed_ok patient_name))
    else ret (jsonify appointment_not_found)
  else if decide (action = "cancel_appointment") then
    let* found := known patient_name in
    if found then
      let* u := setitem patient_name (set_status "cancelled") in
      ret (jsonify (cancelled_ok patient_name))
    else ret (jsonify appointment_not_found)
  else if decide (action = "reschedule_appointment") then
    let* new_time := lift (py_get data "appointment_time" JNull) in
    let* found := known patient_name in
    if found && truthy new_time then
      let* s := lift (py_split_of new_time) in
      let* d := lift (py_first (PyStr.split s)) in
      let* u := setitem patient_name (set_date d) in
      let* v := setitem patient_name
                  (set_time (PyStr.join " " (py_rest (PyStr.split s)))) in
      ret (jsonify (rescheduled_ok patient_name s))
    else ret (jsonify reschedule_failed)
  else ret (jsonify (unknown_action action)).

(** The body of the [try] block. *)
Definition try_body (request_json : json) : M Response :=
  let data := or_empty_dict request_json in
  let* has_type := lift (py_in "type" data) in
  let* ping :=
    (if has_type then ret true else lift (py_in "event_type" data)) in
  if ping then ret (jsonify validation_ack)
  else
    let* a := lift (py_get data "action" (JStr "")) in
    let* action := lift (py_lower a) in
    let* n := lift (py_get data "patient_name" (JStr "")) in
    let* patient_name := lift (py_lower n) in
    branch data action patient_name.

(** [handle_webhook_request]: the [try] block under its
    [except Exception] clause.  [request_json] is what
    [request.get_json()] returned. *)
Definition handle_webhook_request (request_json : json) (st : State)
  : Response * State :=
  match try_body request_json st with
  | (Return r, st') => (r, st')
  | (Raise _, st') => (mkResponse (JObj internal_error) 500, st')
  end.

(** The two POST routes, [/] and [/webhook], both delegate. *)
Definition root_post := handle_webhook_request.
Definition handle_webhook_post := handle_webhook_request.

(** ** What the handler reads from a payload *)

(** [data.get('action', '').lower()] on a dict payload. *)
Definition action_of (p : payload) : outcome string :=
  py_lower (from_option id (JStr "") (p !! "action")).

(** [data.get('patient_name', '').lower()] on a dict payload. *)
Definition patient_name_of (p : payload) : outcome string :=
  py_lower (from_option id (JStr "") (p !! "patient_name")).

(** The three actions whose branch assigns into [appointments]. *)
Definition writing_actions : list string :=
  [ "confirm_appointment"; "cancel_appointment"; "reschedule_appointment" ].

(** A top-level field of a response body. *)
Definition response_field (r : Response) (key : string) : option json :=
  match body r with
  | JObj m => m !! key
  | _ => None
  end.

(** The five values of [action] that have a branch of their own. *)
Definition recognized_actions : list string :=
  [ "lookup_appointment"; "check_availability"; "confirm_appointment";
    "cancel_appointment"; "reschedule_appointment" ].

(** ** Frame conditions on a computation *)

(** Same slot list and same keys in the registry. *)
Definition same_frame (st st' : State) : Prop :=
  available_slots st' = available_slots st
  /\ dom (appointments st') = dom (appointments st).

Definition keeps_frame {A} (c : M A) : Prop :=
  forall st, same_frame st (c st).2.

Definition reads_only {A} (c : M A) : Prop :=
  forall st, (c st).2 = st.

(** ** The views and the response hook *)

(** The methods the two routes declare, [methods=['GET', 'POST']]. *)
Inductive method : Type := GET | POST.

(** [now] stands for the reading [datetime.now().isoformat()] of the
    clock. *)

(** [root], lines 46-56. *)
Definition root (m : method) (now : string) (request_json : json)
  (st : State) : Response * State :=
  match m with
  | GET =>
      (jsonify {[ "service" := JStr "BrightSmile Dental Webhook";
                  "status" := JStr "online";
                  "timestamp" := JStr now ]},
       st)
  | POST => handle_webhook_request request_json st
  end.

(** [handle_webhook], lines 58-72. *)
Definition handle_webhook (m : method) (request_json : json) (st : State)
  : Response * State :=
  match m with
  | GET =>
      (jsonify {[ "service" := JStr "BrightSmile Dental Appointment Manager";
                  "status" := JStr "ready";
                  "endpoints" :=
                    JArr [ JStr "POST /webhook - Main webhook handler";
                           JStr "GET /health - Health check";
                           JStr "GET / - Service info" ] ]},
       st)
  | POST => handle_webhook_request request_json st
  end.

(** [health_check], lines 171-173. *)
Definition health_check (now : string) : Response :=
  jsonify {[ "status" := JStr "healthy"; "timestamp" := JStr now ]}.

(** A response with its header list, in the order the headers were
    added. *)
Record HttpResponse : Type := mkHttp {
  answer : Response;
  headers : list (string * string)
}.

(** [response.headers.add(key, value)]: one more entry at the end, the
    entries already there stay. *)
Definition headers_add (key value : string) (r : HttpResponse)
  : HttpResponse :=
  mkHttp (answer r) (headers r ++ [(key, value)]).

(** [after_request], lines 11-18. *)
Definition after_request (response : HttpResponse) : HttpResponse :=
  let r1 := headers_add "Access-Control-Allow-Origin" "*" response in
  let r2 :=
    headers_add "Access-Control-Allow-Headers" "Content-Type,Authorization"
      r1 in
  let r3 :=
    headers_add "Access-Control-Allow-Methods" "GET,PUT,POST,DELETE,OPTIONS"
      r2 in
  headers_add "Content-Type" "application/json" r3.

(** The values a response carries under a header name, in order. *)
Definition header_values (name : string) (r : HttpResponse) : list string :=
  snd <$> filter (fun kv => fst kv = name) (headers r).

(** ** Requests served one after the other *)

(** The globals live as long as the process: each request starts from
    the state the one before left. *)
Fixpoint serve (requests : list json) (st : State) : State :=
  match requests with
  | [] => st
  | request_json :: rest =>
      serve rest (handle_webhook_request request_json st).2
  end.

(** ** Summaries used in the proofs *)

(** The values the handler puts under the key "status" of a response. *)
Definition response_statuses : list string :=
  [ "received"; "success"; "not_found"; "error" ].

(** The values a record's status takes: the literal's, and the two the
    handler assigns. *)
Definition status_values : list string :=
  [ "scheduled"; "confirmed"; "cancelled" ].

(** A response with a string "status" among [response_statuses], a
    string "message", and the default transport status. *)
Definition business_response (r : Response) : Prop :=
  exists s m,
    response_field r "status" = Some (JStr s)
    /\ response_field r "message" = Some (JStr m)
    /\ s ∈ response_statuses
    /\ status_code r = 200%Z.

Definition answers_well (c : M Response) : Prop :=
  forall st,
    match (c st).1 with
    | Return r => business_response r
    | Raise _ => True
    end.

(** What line 146-147 leave in a record: the first token and the others
    joined. *)
Definition set_date_time (d : string) (rest : list string)
  (apt : AppointmentRecord) : AppointmentRecord :=
  mkApt d (PyStr.join " " rest) (doctor apt) (status apt).

(** The one record a request may rewrite, and how: the lower-cased
    patient_name and the assignment of the branch taken.  [None] for a
    request that writes nothing in any state. *)
Definition record_write (request_json : json)
  : option (string * (AppointmentRecord -> AppointmentRecord)) :=
  match request_json with
  | JObj p =>
      if has_key "type" p || has_key "event_type" p then None
      else
        match action_of p, patient_name_of p with
        | Return a, Return n =>
            if decide (a = "confirm_appointment") then
              Some (n, set_status "confirmed")
            else if decide (a = "cancel_appointment") then
              Some (n, set_status "cancelled")
            else if decide (a = "reschedule_appointment") then
              match p !! "appointment_time" with
              | Some (JStr s) =>
                  match PyStr.split s with
                  | d :: rest => Some (n, set_date_time d rest)
                  | [] => None
                  end
              | _ => None
              end
            else None
        | _, _ => None
        end
  | _ => None
  end.

(** The state a write leaves: the named record rewritten if it is
    there. *)
Definition apply_write
  (w : option (string * (AppointmentRecord -> AppointmentRecord)))
  (st : State) : State :=
  match w with
  | Some (n, f) => mkState (alter f n (appointments st)) (available_slots st)
  | None => st
  end.

End Model.

(** * Properties *)

(** ** [str.split] and [str.join] *)

Module PyStrFacts.
Import PyStr.

Lemma app_nil (s : string) : EmptyString +:+ s = s.
Proof. reflexivity. Qed.

Lemma app_cons (c : ascii) (w s : string) :
  String c w +:+ s = String c (w +:+ s).
Proof. reflexivity. Qed.

Lemma app_empty_r (w : string) : w +:+ EmptyString = w.
Proof.
  induction w as [|c w IH]; [reflexivity | now rewrite app_cons, IH].
Qed.

Lemma app_snoc (w : string) (c : ascii) (s : string) :
  (w +:+ String c EmptyString) +:+ s = w +:+ String c s.
Proof.
  induction w as [|d w IH]; [reflexivity | now rewrite !app_cons, IH].
Qed.

Lemma snoc_not_empty (w : string) (c : ascii) :
  w +:+ String c EmptyString <> EmptyString.
Proof. destruct w; discriminate. Qed.

Lemma flush_empty (rest : list string) : flush EmptyString rest = rest.
Proof. reflexivity. Qed.

Lemma flush_cons (w : string) (rest : list string) :
  w <> EmptyString -> flush w rest = w :: rest.
Proof. destruct w; [congruence | reflexivity]. Qed.

(** ** Where a whitespace character starts *)

(** Whether a whitespace character starts [s] is decided by the bytes
    it is made of: what follows a string that starts with none cannot
    make it start with one, unless the string is cut inside it. *)
Lemma space_len_prefix (v x : string) :
  space_len (v +:+ x) = 0 -> v <> EmptyString -> space_len v = 0.
Proof.
  intros H Hne. destruct v as [|c1 [|c2 [|c3 v]]]; try congruence;
    rewrite ?app_cons, ?app_nil in H; simpl in *.
  - now destruct (space1 c1).
  - destruct (space1 c1); [discriminate|].
    now destruct (space2 c1 c2).
  - exact H.
Qed.

(** A space after a string that starts with no whitespace character
    does not make it start with one. *)
Lemma space_len_before_space (v x : string) :
  space_len v = 0 -> v <> EmptyString ->
  space_len (v +:+ String " " x) = 0.
Proof.
  intros H Hne. destruct v as [|c1 [|c2 [|c3 v]]]; try congruence;
    rewrite ?app_cons, ?app_nil; simpl in *.
  - destruct (space1 c1); [discriminate|].
    unfold space2. change (code " ") with 32%N. simpl.
    rewrite andb_false_r. destruct x as [|c3 x]; [reflexivity|].
    unfold space3. change (code " ") with 32%N. simpl.
    now rewrite !andb_false_r.
  - destruct (space1 c1); [discriminate|].
    destruct (space2 c1 c2); [discriminate|].
    unfold space3. change (code " ") with 32%N. simpl.
    now rewrite !andb_false_r.
  - exact H.
Qed.

(** ** [split] and whitespace *)

Lemma split_from_skip (k : nat) (w : string) (c : ascii) (s : string) :
  split_from (S k) w (String c s) = split_from k w s.
Proof. reflexivity. Qed.

Lemma split_from_char (w : string) (c : ascii) (s : string) :
  space_len (String c s) = 0 ->
  split_from 0 w (String c s) = split_from 0 (w +:+ String c EmptyString) s.
Proof.
  intros H.
  change (split_from 0 w (String c s)) with
    (match space_len (String c s) with
     | O => split_from 0 (w +:+ String c EmptyString) s
     | S k => flush w (split_from k EmptyString s)
     end).
  now rewrite H.
Qed.

Lemma split_from_space (w : string) (c : ascii) (s : string) (k : nat) :
  space_len (String c s) = S k ->
  split_from 0 w (String c s) = flush w (split_from k EmptyString s).
Proof.
  intros H.
  change (split_from 0 w (String c s)) with
    (match space_len (String c s) with
     | O => split_from 0 (w +:+ String c EmptyString) s
     | S k => flush w (split_from k EmptyString s)
     end).
  now rewrite H.
Qed.

Lemma only_space_from_here (c : ascii) (s : string) :
  only_space_from 0 (String c s) =
    match space_len (String c s) with
    | O => false
    | S k => only_space_from k s
    end.
Proof. reflexivity. Qed.

(** Whitespace alone yields no token beyond the run already read. *)
Lemma split_from_only_space (s : string) (k : nat) (w : string) :
  only_space_from k s = true -> split_from k w s = flush w [].
Proof.
  revert k w. induction s as [|c s IH]; intros k w H; [reflexivity|].
  destruct k as [|k].
  - rewrite only_space_from_here in H.
    destruct (space_len (String c s)) as [|j] eqn:Hl; [discriminate|].
    rewrite (split_from_space w c s j Hl). now rewrite (IH j EmptyString H).
  - rewrite split_from_skip. now apply IH.
Qed.

Lemma split_only_space (s : string) :
  only_space s = true -> split s = [].
Proof. intros H. unfold split. now rewrite split_from_only_space. Qed.

Lemma split_from_nil (s : string) (k : nat) (w : string) :
  split_from k w s = [] -> w = EmptyString /\ only_space_from k s = true.
Proof.
  revert k w. induction s as [|c s IH]; intros k w H.
  - destruct w; [auto | discriminate].
  - destruct k as [|k].
    + rewrite only_space_from_here.
      destruct (space_len (String c s)) as [|j] eqn:Hl.
      * rewrite (split_from_char w c s Hl) in H.
        destruct (IH _ _ H) as [Hw _]. now apply snoc_not_empty in Hw.
      * rewrite (split_from_space w c s j Hl) in H.
        destruct w; [|discriminate]. simpl in H.
        destruct (IH _ _ H) as [_ Hs]. auto.
    + rewrite split_from_skip in H. now apply IH.
Qed.

(** [s.split()] is empty exactly when [s] holds whitespace only. *)
Lemma split_nil_iff (s : string) :
  split s = [] <-> only_space s = true.
Proof.
  split; [|apply split_only_space].
  intros H. now destruct (split_from_nil _ _ _ H).
Qed.

Lemma split_cons (s : string) :
  only_space s = false -> exists d rest, split s = d :: rest.
Proof.
  intros H. destruct (split s) as [|d rest] eqn:E; [|eauto].
  apply split_nil_iff in E. congruence.
Qed.

(** ** The elements of [split] are tokens *)

Lemma clear_before_cons (c : ascii) (w s : string) :
  clear_before (String c w) s =
    Nat.eqb (space_len (String c w +:+ s)) 0 && clear_before w s.
Proof. reflexivity. Qed.

Lemma no_space_cons (c : ascii) (w : string) :
  no_space (String c w) = Nat.eqb (space_len (String c w)) 0 && no_space w.
Proof. reflexivity. Qed.

Lemma clear_before_snoc (w : string) (c : ascii) (s : string) :
  clear_before w (String c s) = true ->
  space_len (String c s) = 0 ->
  clear_before (w +:+ String c EmptyString) s = true.
Proof.
  intros Hw Hc. induction w as [|d w IH].
  - rewrite app_nil, clear_before_cons.
    change (String c EmptyString +:+ s) with (String c s).
    now rewrite Hc.
  - rewrite clear_before_cons in Hw. apply andb_true_iff in Hw as [Hd Hw].
    rewrite app_cons, clear_before_cons, <- app_cons, app_snoc, Hd.
    now apply IH.
Qed.

Lemma clear_before_no_space (w s : string) :
  clear_before w s = true -> no_space w = true.
Proof.
  induction w as [|c w IH]; [reflexivity|]. rewrite clear_before_cons.
  intros H. apply andb_true_iff in H as [Hc Hw]. apply Nat.eqb_eq in Hc.
  rewrite no_space_cons.
  rewrite (space_len_prefix (String c w) s Hc) by discriminate.
  now apply IH.
Qed.

Lemma flush_tokens (w s : string) (l : list string) :
  clear_before w s = true -> Forall is_token l -> Forall is_token (flush w l).
Proof.
  intros Hw Hl. destruct w as [|c w]; [exact Hl|].
  simpl flush. constructor; [|exact Hl].
  split; [discriminate | now apply (clear_before_no_space _ s)].
Qed.

Lemma split_from_tokens (s : string) (k : nat) (w : string) :
  (k <> 0 -> w = EmptyString) ->
  clear_before w s = true ->
  Forall is_token (split_from k w s).
Proof.
  revert k w. induction s as [|c s IH]; intros k w Hk Hw.
  - simpl. now apply (flush_tokens w EmptyString).
  - destruct k as [|k].
    + destruct (space_len (String c s)) as [|j] eqn:Hl.
      * rewrite (split_from_char w c s Hl).
        apply IH; [congruence | now apply clear_before_snoc].
      * rewrite (split_from_space w c s j Hl).
        apply (flush_tokens w (String c s)); [assumption|].
        now apply IH.
    + rewrite split_from_skip. rewrite Hk by discriminate.
      now apply IH.
Qed.

(** Every element of [s.split()] is a token. *)
Lemma split_tokens (s : string) : Forall is_token (split s).
Proof. apply split_from_tokens; [congruence | reflexivity]. Qed.

(** ** [split] after [join] *)

(** Reading a token at the end of the text. *)
Lemma split_from_last (t w : string) :
  no_space t = true -> split_from 0 w t = flush (w +:+ t) [].
Proof.
  revert w. induction t as [|c t IH]; intros w Ht.
  - now rewrite app_empty_r.
  - rewrite no_space_cons in Ht. apply andb_true_iff in Ht as [Hc Ht].
    apply Nat.eqb_eq in Hc.
    rewrite (split_from_char w c t Hc), IH by assumption.
    now rewrite app_snoc.
Qed.

(** Reading a token that a space follows. *)
Lemma split_from_app (t w x : string) :
  no_space t = true ->
  split_from 0 w (t +:+ String " " x) =
    split_from 0 (w +:+ t) (String " " x).
Proof.
  revert w. induction t as [|c t IH]; intros w Ht.
  - now rewrite app_nil, app_empty_r.
  - rewrite no_space_cons in Ht. apply andb_true_iff in Ht as [Hc Ht].
    apply Nat.eqb_eq in Hc. rewrite app_cons.
    rewrite split_from_char.
    + rewrite IH by assumption. now rewrite app_snoc.
    + rewrite <- app_cons. now apply space_len_before_space.
Qed.

Lemma split_token_then_space (d x : string) :
  is_token d -> split (d +:+ " " +:+ x) = d :: split x.
Proof.
  intros [Hne Hd]. unfold split.
  change (" " +:+ x) with (String " " x).
  rewrite split_from_app by assumption. rewrite app_nil.
  rewrite (split_from_space d " " x 0) by reflexivity.
  now apply flush_cons.
Qed.

(** Tokens joined by single spaces split back into the same tokens. *)
Lemma split_join (l : list string) :
  Forall is_token l -> split (join " " l) = l.
Proof.
  induction 1 as [|t l Ht Hl IH]; [reflexivity|].
  destruct l as [|t' l].
  - simpl. destruct Ht as [Hne Ht]. unfold split.
    rewrite split_from_last by assumption. rewrite app_nil.
    now apply flush_cons.
  - change (join " " (t :: t' :: l)) with (t +:+ " " +:+ join " " (t' :: l)).
    rewrite split_token_then_space by assumption. now rewrite IH.
Qed.

End PyStrFacts.

(** ** Running the handler on a dict payload *)

Section Dispatch.

Context {cases : PyStr.CaseMapping}.

Implicit Types (p : gmap string json) (st : State).

Lemma or_empty_dict_obj p : or_empty_dict (JObj p) = JObj p.
Proof.
  unfold or_empty_dict. simpl.
  destruct (Nat.eqb (size p) 0) eqn:E; simpl; [|reflexivity].
  apply Nat.eqb_eq, map_size_empty_inv in E. now subst.
Qed.

(** Lines 80-84: a [type] or [event_type] key answers at once. *)
Lemma try_body_ping p st :
  is_Some (p !! "type") \/ is_Some (p !! "event_type") ->
  try_body (JObj p) st = (Return (jsonify validation_ack), st).
Proof.
  intros H. unfold try_body. rewrite or_empty_dict_obj.
  unfold bind, lift, ret, py_in, has_key.
  destruct (p !! "type") eqn:Et; [reflexivity|].
  destruct H as [[v H]|[v H]]; [discriminate H|]. now rewrite H.
Qed.

(** Lines 86-87: past the guard the handler lower-cases the two
    fields and branches. *)
Lemma try_body_branch p st a n :
  p !! "type" = None -> p !! "event_type" = None ->
  action_of p = Return a -> patient_name_of p = Return n ->
  try_body (JObj p) st = branch (JObj p) a n st.
Proof.
  intros Ht He Ha Hn. unfold try_body. rewrite or_empty_dict_obj.
  unfold action_of, patient_name_of in *.
  unfold bind, lift, ret, py_in, py_get, has_key. rewrite Ht, He. simpl.
  now rewrite Ha, Hn.
Qed.

(** A field of the wrong type faults before any branch is taken. *)
Lemma try_body_fault p st e :
  p !! "type" = None -> p !! "event_type" = None ->
  action_of p = Raise e \/
    (exists a, action_of p = Return a /\ patient_name_of p = Raise e) ->
  try_body (JObj p) st = (Raise e, st).
Proof.
  intros Ht He H. unfold try_body. rewrite or_empty_dict_obj.
  unfold action_of, patient_name_of in *.
  unfold bind, lift, ret, py_in, py_get, has_key. rewrite Ht, He. simpl.
  destruct H as [Ha | (a & Ha & Hn)]; rewrite Ha; [reflexivity|].
  now rewrite Hn.
Qed.

End Dispatch.

Ltac pick_branch :=
  unfold branch;
  repeat match goal with
    | |- context [decide (?a = ?b)] =>
        destruct (decide (a = b)) as [?E | ?E];
        [ try discriminate; try contradiction | try congruence ]
    end.

Ltac run :=
  unfold bind, lift, ret, known, getitem, setitem, first_slots, has_key;
  simpl.

(** ** The five branches *)

Section Branches.

Context {cases : PyStr.CaseMapping}.

Implicit Types (data : json) (n : string) (st : State).

Lemma branch_lookup data n st :
  branch data "lookup_appointment" n st =
    (Return match appointments st !! n with
            | Some apt => jsonify (lookup_found n apt)
            | None => jsonify (lookup_not_found n)
            end, st).
Proof.
  pick_branch. run.
  destruct (appointments st !! n) eqn:Hn; simpl; now rewrite ?Hn.
Qed.

Lemma branch_availability data n st :
  branch data "check_availability" n st =
    (Return (jsonify (availability (take 3 (available_slots st)))), st).
Proof. pick_branch. reflexivity. Qed.

Lemma branch_confirm data n st :
  branch data "confirm_appointment" n st =
    match appointments st !! n with
    | Some apt =>
        (Return (jsonify (confirmed_ok n)),
         mkState (<[n := set_status "confirmed" apt]> (appointments st))
                 (available_slots st))
    | None => (Return (jsonify appointment_not_found), st)
    end.
Proof.
  pick_branch. run.
  destruct (appointments st !! n) eqn:Hn; simpl; now rewrite ?Hn.
Qed.

Lemma branch_cancel data n st :
  branch data "cancel_appointment" n st =
    match appointments st !! n with
    | Some apt =>
        (Return (jsonify (cancelled_ok n)),
         mkState (<[n := set_status "cancelled" apt]> (appointments st))
                 (available_slots st))
    | None => (Return (jsonify appointment_not_found), st)
    end.
Proof.
  pick_branch. run.
  destruct (appointments st !! n) eqn:Hn; simpl; now rewrite ?Hn.
Qed.

(** Lines 144-156 when the patient is unknown or the time is falsy. *)
Lemma branch_reschedule_refused p n st :
  appointments st !! n = None
  \/ truthy (from_option id JNull (p !! "appointment_time")) = false ->
  branch (JObj p) "reschedule_appointment" n st =
    (Return (jsonify reschedule_failed), st).
Proof.
  intros H. pick_branch. run.
  destruct H as [H|H]; [now rewrite H|].
  rewrite H. now rewrite andb_false_r.
Qed.

(** Lines 146-151 for a time that holds at least one token. *)
Lemma branch_reschedule_ok p n st apt s d rest :
  appointments st !! n = Some apt ->
  p !! "appointment_time" = Some (JStr s) ->
  PyStr.split s = d :: rest ->
  branch (JObj p) "reschedule_appointment" n st =
    (Return (jsonify (rescheduled_ok n s)),
     mkState (<[n := mkApt d (PyStr.join " " rest) (doctor apt) (status apt)]>
                (appointments st))
             (available_slots st)).
Proof.
  intros Hn Ht Hs. pick_branch. run. rewrite Hn, Ht. simpl.
  assert (String.eqb s "" = false) as ->.
  { destruct s; [discriminate Hs | reflexivity]. }
  simpl. rewrite Hs. simpl. rewrite Hn. simpl.
  rewrite lookup_insert_eq. simpl.
  now rewrite insert_insert_eq.
Qed.

(** Line 146 for a non-empty time without a token: [split()[0]] raises
    before anything is written. *)
Lemma branch_reschedule_blank p n st s :
  is_Some (appointments st !! n) ->
  p !! "appointment_time" = Some (JStr s) ->
  s <> "" -> PyStr.only_space s = true ->
  branch (JObj p) "reschedule_appointment" n st = (Raise IndexError, st).
Proof.
  intros [apt Hn] Ht Hne Hs. pick_branch. run. rewrite Hn, Ht. simpl.
  assert (String.eqb s "" = false) as ->.
  { destruct s; [congruence | reflexivity]. }
  simpl. now rewrite (PyStrFacts.split_only_space s Hs).
Qed.

Lemma branch_unknown data a n st :
  a <> "lookup_appointment" -> a <> "check_availability" ->
  a <> "confirm_appointment" -> a <> "cancel_appointment" ->
  a <> "reschedule_appointment" ->
  branch data a n st = (Return (jsonify (unknown_action a)), st).
Proof. intros. pick_branch. reflexivity. Qed.

End Branches.

(** ** The [except] clause *)

Section Handle.

Context {cases : PyStr.CaseMapping}.

Implicit Types (p : gmap string json) (st : State).

Lemma handle_return request_json st r st' :
  try_body request_json st = (Return r, st') ->
  handle_webhook_request request_json st = (r, st').
Proof. intros H. unfold handle_webhook_request. now rewrite H. Qed.

Lemma handle_raise request_json st e st' :
  try_body request_json st = (Raise e, st') ->
  handle_webhook_request request_json st =
    (mkResponse (JObj internal_error) 500, st').
Proof. intros H. unfold handle_webhook_request. now rewrite H. Qed.

Lemma handle_state request_json st :
  (handle_webhook_request request_json st).2 = (try_body request_json st).2.
Proof.
  unfold handle_webhook_request.
  now destruct (try_body request_json st) as [[r|e] st'].
Qed.

(** The handler looks at a dict payload through five reads only. *)
Lemma try_body_ext p p' st :
  has_key "type" p' = has_key "type" p ->
  has_key "event_type" p' = has_key "event_type" p ->
  action_of p' = action_of p ->
  patient_name_of p' = patient_name_of p ->
  p' !! "appointment_time" = p !! "appointment_time" ->
  try_body (JObj p') st = try_body (JObj p) st.
Proof.
  intros Ht He Ha Hn Hat. unfold try_body. rewrite !or_empty_dict_obj.
  unfold action_of, patient_name_of in *.
  unfold bind, lift, ret, py_in, py_get. rewrite Ht, He, Ha, Hn.
  destruct (has_key "type" p); [reflexivity|].
  destruct (has_key "event_type" p); [reflexivity|].
  destruct (py_lower (from_option id (JStr "") (p !! "action")))
    as [a|]; [|reflexivity].
  destruct (py_lower (from_option id (JStr "") (p !! "patient_name")))
    as [n|]; [|reflexivity].
  unfold branch, bind, lift, py_get. now rewrite Hat.
Qed.

(** Line 77: an empty body is read as an empty dict, which has no
    action. *)
Lemma try_body_falsy request_json st :
  truthy request_json = false ->
  try_body request_json st = (Return (jsonify (unknown_action "")), st).
Proof.
  intros H. unfold try_body, or_empty_dict. rewrite H.
  unfold bind, lift, ret, py_in, py_get, py_lower, has_key.
  rewrite !lookup_empty. simpl. rewrite PyStr.lower_empty.
  apply branch_unknown; discriminate.
Qed.

End Handle.

(** ** Frame: what a dispatch can change *)

Section Frame.

Lemma same_frame_refl st : same_frame st st.
Proof. now split. Qed.

Lemma same_frame_trans st1 st2 st3 :
  same_frame st1 st2 -> same_frame st2 st3 -> same_frame st1 st3.
Proof. intros [H1 H2] [H3 H4]. split; congruence. Qed.

Lemma reads_only_keeps {A} (c : M A) : reads_only c -> keeps_frame c.
Proof. intros H st. rewrite H. apply same_frame_refl. Qed.

Lemma reads_only_ret {A} (a : A) : reads_only (ret a).
Proof. now intros st. Qed.

Lemma reads_only_lift {A} (o : outcome A) : reads_only (lift o).
Proof. now intros st. Qed.

Lemma reads_only_known n : reads_only (known n).
Proof. now intros st. Qed.

Lemma reads_only_first_slots : reads_only first_slots.
Proof. now intros st. Qed.

Lemma reads_only_getitem n : reads_only (getitem n).
Proof. intros st. unfold getitem. now destruct (appointments st !! n). Qed.

Lemma reads_only_bind {A B} (c : M A) (k : A -> M B) :
  reads_only c -> (forall a, reads_only (k a)) -> reads_only (bind c k).
Proof.
  intros Hc Hk st. unfold bind. specialize (Hc st).
  destruct (c st) as [[a|e] st']; simpl in *; subst; [apply Hk | reflexivity].
Qed.

Lemma keeps_frame_bind {A B} (c : M A) (k : A -> M B) :
  keeps_frame c -> (forall a, keeps_frame (k a)) -> keeps_frame (bind c k).
Proof.
  intros Hc Hk st. unfold bind. specialize (Hc st).
  destruct (c st) as [[a|e] st']; simpl in *; [|assumption].
  eapply same_frame_trans; [exact Hc | apply Hk].
Qed.

(** An assignment to a field of a stored record keeps the keys. *)
Lemma keeps_frame_setitem n upd : keeps_frame (setitem n upd).
Proof.
  intros st. unfold setitem.
  destruct (appointments st !! n) as [apt|] eqn:Hn; simpl;
    [|apply same_frame_refl].
  split; [reflexivity|]. simpl.
  rewrite dom_insert_L. apply (elem_of_dom_2 (D:=gset string)) in Hn.
  apply subseteq_union_1_L. now apply singleton_subseteq_l.
Qed.

End Frame.

Create HintDb frame.

#[local] Hint Resolve reads_only_ret reads_only_lift reads_only_known
  reads_only_first_slots reads_only_getitem : frame.
#[local] Hint Resolve reads_only_keeps keeps_frame_setitem : frame.

Section FrameOfHandler.

Context {cases : PyStr.CaseMapping}.

Lemma branch_keeps_frame data a n : keeps_frame (branch data a n).
Proof.
  unfold branch.
  repeat match goal with
    | |- keeps_frame (if ?b then _ else _) => destruct b
    | |- keeps_frame (bind _ _) => apply keeps_frame_bind; [|intros ?]
    end; auto with frame.
Qed.

Lemma branch_reads_only data a n :
  a ∉ writing_actions -> reads_only (branch data a n).
Proof.
  unfold writing_actions. intros H.
  apply not_elem_of_cons in H as [Hc H].
  apply not_elem_of_cons in H as [Hx H].
  apply not_elem_of_cons in H as [Hr _].
  unfold branch.
  repeat match goal with
    | |- reads_only (if decide (?x = ?y) then _ else _) =>
        destruct (decide (x = y)); [try contradiction|]
    | |- reads_only (if ?b then _ else _) => destruct b
    | |- reads_only (bind _ _) => apply reads_only_bind; [|intros ?]
    end; auto with frame.
Qed.

(** Either the [try] block leaves the state alone, or the request is a
    dict past the guard and the block ran the branch of its action. *)
Lemma try_body_shape request_json st :
  (try_body request_json st).2 = st
  \/ exists p a n,
       request_json = JObj p
       /\ p !! "type" = None /\ p !! "event_type" = None
       /\ action_of p = Return a
       /\ try_body request_json st = branch (JObj p) a n st.
Proof.
  destruct (truthy request_json) eqn:Htruthy.
  2:{ left. now rewrite try_body_falsy. }
  destruct request_json as [| b | z | f | s | l | p];
    try (left; unfold try_body, or_empty_dict; rewrite Htruthy;
         unfold bind, lift, ret; simpl;
         repeat match goal with
           | |- context [if ?c then _ else _] => destruct c; simpl
           end;
         reflexivity).
  destruct (p !! "type") as [v|] eqn:Ht.
  { left. rewrite try_body_ping; [reflexivity | left; eauto]. }
  destruct (p !! "event_type") as [v|] eqn:He.
  { left. rewrite try_body_ping; [reflexivity | right; eauto]. }
  destruct (action_of p) as [a|e] eqn:Ha.
  2:{ left. rewrite (try_body_fault p st e); auto. }
  destruct (patient_name_of p) as [n|e] eqn:Hn.
  2:{ left. rewrite (try_body_fault p st e); eauto. }
  right. exists p, a, n. repeat split; try assumption.
  now apply try_body_branch.
Qed.

End FrameOfHandler.

(** * The dispatcher's contract *)

Section Contract.

Context {cases : PyStr.CaseMapping}.

Implicit Types (p : gmap string json) (st : State) (n : string).

Lemma handle_branch p st a n r st' :
  p !! "type" = None -> p !! "event_type" = None ->
  action_of p = Return a -> patient_name_of p = Return n ->
  branch (JObj p) a n st = (Return r, st') ->
  handle_webhook_request (JObj p) st = (r, st').
Proof.
  intros Ht He Ha Hn Hb. apply handle_return.
  now rewrite (try_body_branch p st a n).
Qed.

Lemma handle_ext p p' st :
  has_key "type" p' = has_key "type" p ->
  has_key "event_type" p' = has_key "event_type" p ->
  action_of p' = action_of p ->
  patient_name_of p' = patient_name_of p ->
  p' !! "appointment_time" = p !! "appointment_time" ->
  handle_webhook_request (JObj p') st = handle_webhook_request (JObj p) st.
Proof.
  intros. unfold handle_webhook_request.
  now rewrite (try_body_ext p p' st).
Qed.

(** A string method called on a field that is not a string is an
    internal error, whatever the action, and nothing is written. *)
Lemma handle_wrong_type p st e :
  p !! "type" = None -> p !! "event_type" = None ->
  action_of p = Raise e \/
    (exists a, action_of p = Return a /\ patient_name_of p = Raise e) ->
  handle_webhook_request (JObj p) st =
    (mkResponse (JObj internal_error) 500, st).
Proof.
  intros Ht He H. apply (handle_raise _ _ e).
  now apply try_body_fault.
Qed.

Ltac to_branch := eapply handle_branch; [eassumption .. |].

(** C1, as amended.  For a payload without a [type] or [event_type] key
    whose action is "reschedule_appointment", whose patient_name is
    absent or a string and, lower-cased, a key of the registry, and
    whose appointment_time is a string with at least one non-whitespace
    character, the handler
    overwrites the record's date with the first whitespace-separated
    token [d] of appointment_time and its time with the remaining tokens
    [rest] joined by single spaces, keeps doctor and status, and answers
    success with a message that echoes appointment_time as given. *)
Theorem reschedule_overwrites_date_and_time p st n apt s :
  p !! "type" = None -> p !! "event_type" = None ->
  action_of p = Return "reschedule_appointment" ->
  patient_name_of p = Return n ->
  appointments st !! n = Some apt ->
  p !! "appointment_time" = Some (JStr s) ->
  PyStr.only_space s = false ->
  exists d rest,
    PyStr.split s = d :: rest /\
    handle_webhook_request (JObj p) st =
      (mkResponse
         (JObj {[ "status" := JStr "success";
                  "message" :=
                    JStr ("Appointment rescheduled for " +:+ PyStr.title n
                          +:+ " to " +:+ s) ]})
         200,
       mkState
         (<[n := mkApt d (PyStr.join " " rest) (doctor apt) (status apt)]>
            (appointments st))
         (available_slots st)).
Proof.
  intros Ht He Ha Hn Hk Hs Hns.
  destruct (PyStrFacts.split_cons s Hns) as (d & rest & Hsplit).
  exists d, rest. split; [assumption|].
  to_branch.
  now apply branch_reschedule_ok.
Qed.

(** C2, as amended.  For a payload without a [type] or [event_type] key
    whose action is "reschedule_appointment", whose patient_name is
    absent or a string and, lower-cased, a key of the registry, and
    whose appointment_time is a non-empty string of whitespace only
    (ASCII or not), the string splits into no
    token, indexing the first one raises [IndexError] inside the [try]
    block, and the handler answers the generic internal error with
    transport status 500, leaving the whole state as it was. *)
Theorem reschedule_blank_time_is_internal_error p st n s :
  p !! "type" = None -> p !! "event_type" = None ->
  action_of p = Return "reschedule_appointment" ->
  patient_name_of p = Return n ->
  is_Some (appointments st !! n) ->
  p !! "appointment_time" = Some (JStr s) ->
  s <> "" -> PyStr.only_space s = true ->
  PyStr.split s = []
  /\ try_body (JObj p) st = (Raise IndexError, st)
  /\ handle_webhook_request (JObj p) st =
       (mkResponse
          (JObj {[ "status" := JStr "error";
                   "message" := JStr "Internal server error" ]})
          500,
        st).
Proof.
  intros Ht He Ha Hn Hk Hs Hne Hsp.
  assert (try_body (JObj p) st = (Raise IndexError, st)) as Hraise.
  { rewrite (try_body_branch p st "reschedule_appointment" n) by assumption.
    now apply (branch_reschedule_blank p n st s). }
  split; [now apply PyStrFacts.split_only_space|].
  split; [assumption|].
  now apply (handle_raise _ _ IndexError).
Qed.

(** C3.  Every payload that contains the key "type" or the key
    "event_type", whatever its value and whatever else the payload
    holds, is answered with the fixed acknowledgement, and the state is
    left as it was. *)
Theorem validation_ping_is_acknowledged p st :
  is_Some (p !! "type") \/ is_Some (p !! "event_type") ->
  handle_webhook_request (JObj p) st =
    (mkResponse
       (JObj {[ "status" := JStr "received";
                "message" := JStr "Telnyx webhook received successfully" ]})
       200,
     st).
Proof. intros H. apply handle_return. now apply try_body_ping. Qed.

(** C4, as amended.  For a payload without a [type] or [event_type] key
    whose patient_name is absent or a string and whose action is
    "lookup_appointment": when the lower-cased patient_name is a key of
    the registry the answer is success with
    the stored record's four fields, otherwise it is not_found; the
    state is left as it was in both cases. *)
Theorem lookup_reports_stored_record p st n :
  p !! "type" = None -> p !! "event_type" = None ->
  action_of p = Return "lookup_appointment" ->
  patient_name_of p = Return n ->
  handle_webhook_request (JObj p) st =
    (match appointments st !! n with
     | Some apt =>
         mkResponse
           (JObj {[ "status" := JStr "success";
                    "message" :=
                      JStr ("Found appointment for " +:+ PyStr.title n);
                    "appointment" :=
                      JObj {[ "date" := JStr (date apt);
                              "time" := JStr (time apt);
                              "doctor" := JStr (doctor apt);
                              "status" := JStr (status apt) ]} ]})
           200
     | None =>
         mkResponse
           (JObj {[ "status" := JStr "not_found";
                    "message" :=
                      JStr ("No appointment found for "
                            +:+ PyStr.title n) ]})
           200
     end,
     st).
Proof.
  intros Ht He Ha Hn. to_branch.
  rewrite branch_lookup. now destruct (appointments st !! n).
Qed.

(** C5, as amended.  For a payload without a [type] or [event_type] key
    whose patient_name is absent or a string and whose action is
    "check_availability", the answer is success with the first three
    entries of [available_slots] in order, whatever else the payload
    holds, and the state is left as it was. *)
Theorem availability_is_first_three_slots p st n :
  p !! "type" = None -> p !! "event_type" = None ->
  action_of p = Return "check_availability" ->
  patient_name_of p = Return n ->
  handle_webhook_request (JObj p) st =
    (mkResponse
       (JObj {[ "status" := JStr "success";
                "available_slots" :=
                  JArr (JStr <$> take 3 (available_slots st));
                "message" := JStr "Here are some available times" ]})
       200,
     st).
Proof.
  intros Ht He Ha Hn. to_branch.
  apply branch_availability.
Qed.

(** C6, as amended.  For a payload without a [type] or [event_type] key
    whose patient_name is absent or a string and whose action is
    "confirm_appointment" (respectively "cancel_appointment"): when the
    lower-cased patient_name is a key of
    the registry, the record's status becomes "confirmed" (respectively
    "cancelled"), its date, time and doctor stay, and the answer is
    success; otherwise the answer is the error "Appointment not found"
    and the state is left as it was. *)
Theorem confirm_and_cancel_set_status p st n :
  p !! "type" = None -> p !! "event_type" = None ->
  patient_name_of p = Return n ->
  (action_of p = Return "confirm_appointment" ->
   handle_webhook_request (JObj p) st =
     match appointments st !! n with
     | Some apt =>
         (mkResponse
            (JObj {[ "status" := JStr "success";
                     "message" :=
                       JStr ("Appointment confirmed for "
                             +:+ PyStr.title n) ]})
            200,
          mkState
            (<[n := mkApt (date apt) (time apt) (doctor apt) "confirmed"]>
               (appointments st))
            (available_slots st))
     | None =>
         (mkResponse
            (JObj {[ "status" := JStr "error";
                     "message" := JStr "Appointment not found" ]})
            200,
          st)
     end)
  /\
  (action_of p = Return "cancel_appointment" ->
   handle_webhook_request (JObj p) st =
     match appointments st !! n with
     | Some apt =>
         (mkResponse
            (JObj {[ "status" := JStr "success";
                     "message" :=
                       JStr ("Appointment cancelled for "
                             +:+ PyStr.title n) ]})
            200,
          mkState
            (<[n := mkApt (date apt) (time apt) (doctor apt) "cancelled"]>
               (appointments st))
            (available_slots st))
     | None =>
         (mkResponse
            (JObj {[ "status" := JStr "error";
                     "message" := JStr "Appointment not found" ]})
            200,
          st)
     end).
Proof.
  intros Ht He Hn. split; intros Ha.
  - destruct (appointments st !! n) as [apt|] eqn:Hk;
      to_branch; rewrite branch_confirm; now rewrite Hk.
  - destruct (appointments st !! n) as [apt|] eqn:Hk;
      to_branch; rewrite branch_cancel; now rewrite Hk.
Qed.

(** C7, as amended.  For a payload without a [type] or [event_type] key
    whose patient_name is absent or a string and whose action is
    "reschedule_appointment": when appointment_time is absent or the
    empty string, or the lower-cased patient_name is not a key of the
    registry, the answer is the error "Could not reschedule
    appointment" and the state is left as it was. *)
Theorem reschedule_is_refused p st n :
  p !! "type" = None -> p !! "event_type" = None ->
  action_of p = Return "reschedule_appointment" ->
  patient_name_of p = Return n ->
  p !! "appointment_time" = None
  \/ p !! "appointment_time" = Some (JStr "")
  \/ appointments st !! n = None ->
  handle_webhook_request (JObj p) st =
    (mkResponse
       (JObj {[ "status" := JStr "error";
                "message" := JStr "Could not reschedule appointment" ]})
       200,
     st).
Proof.
  intros Ht He Ha Hn H. to_branch.
  apply branch_reschedule_refused.
  destruct H as [H|[H|H]]; [right | right | now left]; now rewrite H.
Qed.

(** C8, as amended.  For a payload without a [type] or [event_type] key
    whose patient_name is absent or a string and whose lower-cased
    action (the empty string when the field is absent) is none of the
    five recognized actions, the answer is the error "Unknown action: "
    followed by the lower-cased action, and the state is left as it
    was. *)
Theorem unknown_action_is_reported p st a n :
  p !! "type" = None -> p !! "event_type" = None ->
  action_of p = Return a ->
  patient_name_of p = Return n ->
  a ∉ recognized_actions ->
  handle_webhook_request (JObj p) st =
    (mkResponse
       (JObj {[ "status" := JStr "error";
                "message" := JStr ("Unknown action: " +:+ a) ]})
       200,
     st).
Proof.
  intros Ht He Ha Hn Hu. to_branch.
  unfold recognized_actions in Hu.
  repeat (apply not_elem_of_cons in Hu as [? Hu]).
  now apply branch_unknown.
Qed.

(** C9.  Matching of the patient name and of the action ignores case:
    replacing the payload's patient_name string, or its action string,
    by any string with the same lower-casing leaves the response (body
    and transport status) and the state after the dispatch the same. *)
Theorem matching_ignores_case p st :
  (forall n n',
     p !! "patient_name" = Some (JStr n) ->
     PyStr.lower n' = PyStr.lower n ->
     handle_webhook_request (JObj (<["patient_name" := JStr n']> p)) st =
       handle_webhook_request (JObj p) st)
  /\
  (forall a a',
     p !! "action" = Some (JStr a) ->
     PyStr.lower a' = PyStr.lower a ->
     handle_webhook_request (JObj (<["action" := JStr a']> p)) st =
       handle_webhook_request (JObj p) st).
Proof.
  split.
  - intros n n' Hp Hl. apply handle_ext;
      unfold has_key, action_of, patient_name_of;
      rewrite ?lookup_insert_eq, ?lookup_insert_ne by discriminate;
      try reflexivity.
    rewrite Hp. simpl. now rewrite Hl.
  - intros a a' Hp Hl. apply handle_ext;
      unfold has_key, action_of, patient_name_of;
      rewrite ?lookup_insert_eq, ?lookup_insert_ne by discriminate;
      try reflexivity.
    rewrite Hp. simpl. now rewrite Hl.
Qed.

(** C10.  For every decoded request body and every state, a dispatch
    leaves [available_slots] as it was and keeps the registry's set of
    keys; and it leaves the whole state as it was unless the request is
    a payload without a [type] or [event_type] key whose action is
    confirm_appointment, cancel_appointment or reschedule_appointment:
    lookups, availability checks, validation pings, unknown actions and
    faulting requests change nothing. *)
Theorem dispatch_frame (request_json : json) st :
  let st' := (handle_webhook_request request_json st).2 in
  available_slots st' = available_slots st
  /\ dom (appointments st') = dom (appointments st)
  /\ (st' = st
      \/ exists p a,
           request_json = JObj p
           /\ p !! "type" = None /\ p !! "event_type" = None
           /\ action_of p = Return a
           /\ a ∈ writing_actions).
Proof.
  simpl. rewrite handle_state.
  destruct (try_body_shape request_json st)
    as [Hs | (p & a & n & -> & Ht & He & Ha & Hb)].
  - rewrite Hs. auto.
  - rewrite Hb.
    destruct (branch_keeps_frame (JObj p) a n st) as [H1 H2].
    split; [assumption|]. split; [assumption|].
    destruct (decide (a ∈ writing_actions)) as [Hin | Hout].
    + right. exists p, a. auto.
    + left. now apply branch_reads_only.
Qed.

End Contract.

(** * The contract at concrete requests *)

Section Instances.

(** The requests below write action and patient_name in ASCII, where
    [PyStr.ascii_cases] is Python's case mapping. *)
#[local] Existing Instance PyStr.ascii_cases.

Ltac evaluate := vm_compute; reflexivity.

Ltac unequal := vm_compute; intros ?Heq; discriminate.

(** The spec's own example: Jane Doe moved to 2025-08-02 9:00 AM. *)
Lemma reschedule_overwrites_date_and_time_witness :
  handle_webhook_request
    (JObj {[ "action" := JStr "reschedule_appointment";
             "patient_name" := JStr "Jane Doe";
             "appointment_time" := JStr "2025-08-02 9:00 AM" ]})
    initial_state =
  (mkResponse
     (JObj {[ "status" := JStr "success";
              "message" :=
                JStr "Appointment rescheduled for Jane Doe to 2025-08-02 9:00 AM" ]})
     200,
   mkState
     (<["jane doe" := mkApt "2025-08-02" "9:00 AM" "Dr. Martinez" "scheduled"]>
        initial_appointments)
     initial_slots).
Proof.
  pose (p := ({[ "action" := JStr "reschedule_appointment";
                 "patient_name" := JStr "Jane Doe";
                 "appointment_time" := JStr "2025-08-02 9:00 AM" ]}
              : gmap string json)).
  destruct
    (reschedule_overwrites_date_and_time
       p initial_state "jane doe" jane_doe "2025-08-02 9:00 AM"
       ltac:(evaluate) ltac:(evaluate) ltac:(evaluate) ltac:(evaluate)
       ltac:(evaluate) ltac:(evaluate) ltac:(evaluate))
    as (d & rest & Hs & Hh).
  subst p. rewrite Hh. vm_compute in Hs. injection Hs as <- <-. reflexivity.
Defined.

(** C1 as stated fails twice.  A non-empty appointment_time made of one
    space has no first token: the request faults and the record keeps
    its date and time.  And a payload that also carries a [type] key is
    acknowledged before the action is read. *)
Lemma reschedule_nonempty_time_counterexample :
  let blank : gmap string json :=
    {[ "action" := JStr "reschedule_appointment";
       "patient_name" := JStr "jane doe";
       "appointment_time" := JStr " " ]} in
  let ping : gmap string json :=
    {[ "type" := JStr "ping";
       "action" := JStr "reschedule_appointment";
       "patient_name" := JStr "jane doe";
       "appointment_time" := JStr "2025-08-02 9:00 AM" ]} in
  (action_of blank = Return "reschedule_appointment"
   /\ patient_name_of blank = Return "jane doe"
   /\ initial_appointments !! "jane doe" = Some jane_doe
   /\ blank !! "appointment_time" = Some (JStr " ")
   /\ handle_webhook_request (JObj blank) initial_state =
        (mkResponse (JObj internal_error) 500, initial_state)
   /\ response_field (handle_webhook_request (JObj blank) initial_state).1
        "status" <> Some (JStr "success"))
  /\
  (action_of ping = Return "reschedule_appointment"
   /\ patient_name_of ping = Return "jane doe"
   /\ ping !! "appointment_time" = Some (JStr "2025-08-02 9:00 AM")
   /\ handle_webhook_request (JObj ping) initial_state =
        (mkResponse (JObj validation_ack) 200, initial_state)
   /\ response_field (handle_webhook_request (JObj ping) initial_state).1
        "status" <> Some (JStr "success")).
Proof. repeat split; try evaluate; unequal. Qed.

(** A time made of a no-break space and a space. *)
Lemma reschedule_blank_time_is_internal_error_witness :
  PyStr.split (PyStr.nbsp +:+ " ") = []
  /\ try_body
       (JObj {[ "action" := JStr "reschedule_appointment";
                "patient_name" := JStr "john smith";
                "appointment_time" := JStr (PyStr.nbsp +:+ " ") ]})
       initial_state = (Raise IndexError, initial_state)
  /\ handle_webhook_request
       (JObj {[ "action" := JStr "reschedule_appointment";
                "patient_name" := JStr "john smith";
                "appointment_time" := JStr (PyStr.nbsp +:+ " ") ]})
       initial_state =
     (mkResponse
        (JObj {[ "status" := JStr "error";
                 "message" := JStr "Internal server error" ]})
        500,
      initial_state).
Proof.
  apply (reschedule_blank_time_is_internal_error _ initial_state "john smith");
    try evaluate.
  - exists john_smith. evaluate.
  - discriminate.
Defined.

(** C2 as stated fails when the payload also carries a [type] key: the
    request is acknowledged with transport status 200 and never reaches
    the token indexing. *)
Lemma reschedule_blank_time_counterexample :
  let ping : gmap string json :=
    {[ "type" := JStr "ping";
       "action" := JStr "reschedule_appointment";
       "patient_name" := JStr "jane doe";
       "appointment_time" := JStr "  " ]} in
  action_of ping = Return "reschedule_appointment"
  /\ patient_name_of ping = Return "jane doe"
  /\ initial_appointments !! "jane doe" = Some jane_doe
  /\ ping !! "appointment_time" = Some (JStr "  ")
  /\ PyStr.only_space "  " = true
  /\ handle_webhook_request (JObj ping) initial_state =
       (mkResponse (JObj validation_ack) 200, initial_state)
  /\ (handle_webhook_request (JObj ping) initial_state).1 <>
       mkResponse (JObj internal_error) 500.
Proof.
  repeat split; try evaluate.
  intros H. apply (f_equal status_code) in H. vm_compute in H. discriminate.
Qed.

Lemma validation_ping_is_acknowledged_witness :
  handle_webhook_request
    (JObj {[ "event_type" := JNull;
             "action" := JStr "cancel_appointment";
             "patient_name" := JStr "john smith" ]})
    initial_state =
  (mkResponse
     (JObj {[ "status" := JStr "received";
              "message" := JStr "Telnyx webhook received successfully" ]})
     200,
   initial_state).
Proof.
  apply validation_ping_is_acknowledged. right. exists JNull. evaluate.
Defined.

Lemma lookup_reports_stored_record_witness :
  handle_webhook_request
    (JObj {[ "action" := JStr "lookup_appointment";
             "patient_name" := JStr "John Smith" ]})
    initial_state =
  (mkResponse
     (JObj {[ "status" := JStr "success";
              "message" := JStr "Found appointment for John Smith";
              "appointment" :=
                JObj {[ "date" := JStr "2025-07-30";
                        "time" := JStr "3:00 PM";
                        "doctor" := JStr "Dr. Clark";
                        "status" := JStr "scheduled" ]} ]})
     200,
   initial_state).
Proof.
  etransitivity;
    [ apply (lookup_reports_stored_record _ initial_state "john smith");
      evaluate
    | evaluate ].
Defined.

(** C4 as stated fails twice.  When the payload also carries a [type]
    key, the known patient is not looked up.  And with a patient_name of
    [null] a lookup is neither found nor not_found: the request faults
    at [.lower()]. *)
Lemma lookup_counterexample :
  let ping : gmap string json :=
    {[ "type" := JStr "ping";
       "action" := JStr "lookup_appointment";
       "patient_name" := JStr "john smith" ]} in
  let null_name : gmap string json :=
    {[ "action" := JStr "lookup_appointment"; "patient_name" := JNull ]} in
  (action_of ping = Return "lookup_appointment"
   /\ patient_name_of ping = Return "john smith"
   /\ initial_appointments !! "john smith" = Some john_smith
   /\ handle_webhook_request (JObj ping) initial_state =
        (mkResponse (JObj validation_ack) 200, initial_state)
   /\ response_field (handle_webhook_request (JObj ping) initial_state).1
        "status" <> Some (JStr "success")
   /\ response_field (handle_webhook_request (JObj ping) initial_state).1
        "appointment" = None)
  /\
  (action_of null_name = Return "lookup_appointment"
   /\ null_name !! "type" = None /\ null_name !! "event_type" = None
   /\ handle_webhook_request (JObj null_name) initial_state =
        (mkResponse (JObj internal_error) 500, initial_state)
   /\ response_field
        (handle_webhook_request (JObj null_name) initial_state).1
        "status" <> Some (JStr "success")
   /\ response_field
        (handle_webhook_request (JObj null_name) initial_state).1
        "status" <> Some (JStr "not_found")).
Proof. repeat split; try evaluate; unequal. Qed.

Lemma availability_is_first_three_slots_witness :
  handle_webhook_request
    (JObj {[ "action" := JStr "check_availability";
             "date" := JStr "2025-08-01";
             "doctor" := JStr "Dr. Clark" ]})
    initial_state =
  (mkResponse
     (JObj {[ "status" := JStr "success";
              "available_slots" :=
                JArr [ JStr "2025-07-29 2:00 PM";
                       JStr "2025-07-30 10:00 AM";
                       JStr "2025-07-30 4:00 PM" ];
              "message" := JStr "Here are some available times" ]})
     200,
   initial_state).
Proof.
  apply (availability_is_first_three_slots _ initial_state ""); evaluate.
Defined.

(** C5 as stated fails twice: with a [type] key the request is
    acknowledged and no slot is listed; with a patient_name of [null]
    the request faults at [.lower()] before the action is compared. *)
Lemma availability_counterexample :
  let ping : gmap string json :=
    {[ "type" := JStr "ping"; "action" := JStr "check_availability" ]} in
  let null_name : gmap string json :=
    {[ "action" := JStr "check_availability"; "patient_name" := JNull ]} in
  (action_of ping = Return "check_availability"
   /\ handle_webhook_request (JObj ping) initial_state =
        (mkResponse (JObj validation_ack) 200, initial_state)
   /\ response_field (handle_webhook_request (JObj ping) initial_state).1
        "available_slots" = None)
  /\
  (action_of null_name = Return "check_availability"
   /\ null_name !! "type" = None /\ null_name !! "event_type" = None
   /\ handle_webhook_request (JObj null_name) initial_state =
        (mkResponse (JObj internal_error) 500, initial_state)
   /\ response_field
        (handle_webhook_request (JObj null_name) initial_state).1
        "available_slots" = None).
Proof. repeat split; evaluate. Qed.

Lemma confirm_and_cancel_set_status_witness :
  handle_webhook_request
    (JObj {[ "action" := JStr "confirm_appointment";
             "patient_name" := JStr "JOHN SMITH" ]})
    initial_state =
  (mkResponse
     (JObj {[ "status" := JStr "success";
              "message" := JStr "Appointment confirmed for John Smith" ]})
     200,
   mkState
     (<["john smith" := mkApt "2025-07-30" "3:00 PM" "Dr. Clark" "confirmed"]>
        initial_appointments)
     initial_slots)
  /\
  handle_webhook_request
    (JObj {[ "action" := JStr "cancel_appointment";
             "patient_name" := JStr "nobody" ]})
    initial_state =
  (mkResponse
     (JObj {[ "status" := JStr "error";
              "message" := JStr "Appointment not found" ]})
     200,
   initial_state).
Proof.
  split.
  - pose (p := ({[ "action" := JStr "confirm_appointment";
                   "patient_name" := JStr "JOHN SMITH" ]}
                : gmap string json)).
    apply (proj1 (confirm_and_cancel_set_status p initial_state "john smith"
                    ltac:(evaluate) ltac:(evaluate) ltac:(evaluate))).
    evaluate.
  - pose (p := ({[ "action" := JStr "cancel_appointment";
                   "patient_name" := JStr "nobody" ]}
                : gmap string json)).
    apply (proj2 (confirm_and_cancel_set_status p initial_state "nobody"
                    ltac:(evaluate) ltac:(evaluate) ltac:(evaluate))).
    evaluate.
Defined.

(** C6 as stated fails twice.  When the payload also carries an
    [event_type] key, the known patient's record keeps its status.  And
    with a patient_name of [null] a confirm gets neither success nor
    "Appointment not found": the request faults at [.lower()]. *)
Lemma confirm_counterexample :
  let ping : gmap string json :=
    {[ "event_type" := JStr "call.initiated";
       "action" := JStr "confirm_appointment";
       "patient_name" := JStr "john smith" ]} in
  let null_name : gmap string json :=
    {[ "action" := JStr "confirm_appointment"; "patient_name" := JNull ]} in
  (action_of ping = Return "confirm_appointment"
   /\ patient_name_of ping = Return "john smith"
   /\ initial_appointments !! "john smith" = Some john_smith
   /\ handle_webhook_request (JObj ping) initial_state =
        (mkResponse (JObj validation_ack) 200, initial_state)
   /\ response_field (handle_webhook_request (JObj ping) initial_state).1
        "status" <> Some (JStr "success")
   /\ status <$>
        appointments (handle_webhook_request (JObj ping) initial_state).2
          !! "john smith" = Some "scheduled")
  /\
  (action_of null_name = Return "confirm_appointment"
   /\ null_name !! "type" = None /\ null_name !! "event_type" = None
   /\ handle_webhook_request (JObj null_name) initial_state =
        (mkResponse (JObj internal_error) 500, initial_state)
   /\ response_field
        (handle_webhook_request (JObj null_name) initial_state).1
        "message" <> Some (JStr "Appointment not found")
   /\ status_code (handle_webhook_request (JObj null_name) initial_state).1
        <> 200%Z).
Proof. repeat split; try evaluate; unequal. Qed.

Lemma reschedule_is_refused_witness :
  handle_webhook_request
    (JObj {[ "action" := JStr "reschedule_appointment";
             "patient_name" := JStr "jane doe" ]})
    initial_state =
  (mkResponse
     (JObj {[ "status" := JStr "error";
              "message" := JStr "Could not reschedule appointment" ]})
     200,
   initial_state).
Proof.
  apply (reschedule_is_refused _ initial_state "jane doe"); try evaluate.
  left. evaluate.
Defined.

(** C7 as stated fails twice, each time with appointment_time absent:
    with a [type] key the request is acknowledged; with a patient_name
    of [null] the request faults at [.lower()]. *)
Lemma reschedule_refusal_counterexample :
  let ping : gmap string json :=
    {[ "type" := JStr "ping";
       "action" := JStr "reschedule_appointment";
       "patient_name" := JStr "jane doe" ]} in
  let null_name : gmap string json :=
    {[ "action" := JStr "reschedule_appointment";
       "patient_name" := JNull ]} in
  (action_of ping = Return "reschedule_appointment"
   /\ ping !! "appointment_time" = None
   /\ handle_webhook_request (JObj ping) initial_state =
        (mkResponse (JObj validation_ack) 200, initial_state)
   /\ response_field (handle_webhook_request (JObj ping) initial_state).1
        "message" <> Some (JStr "Could not reschedule appointment"))
  /\
  (action_of null_name = Return "reschedule_appointment"
   /\ null_name !! "type" = None /\ null_name !! "event_type" = None
   /\ null_name !! "appointment_time" = None
   /\ handle_webhook_request (JObj null_name) initial_state =
        (mkResponse (JObj internal_error) 500, initial_state)
   /\ response_field
        (handle_webhook_request (JObj null_name) initial_state).1
        "message" <> Some (JStr "Could not reschedule appointment")).
Proof. repeat split; try evaluate; unequal. Qed.

Lemma unknown_action_is_reported_witness :
  handle_webhook_request (JObj {[ "action" := JStr "Frobnicate" ]})
    initial_state =
  (mkResponse
     (JObj {[ "status" := JStr "error";
              "message" := JStr "Unknown action: frobnicate" ]})
     200,
   initial_state).
Proof.
  apply (unknown_action_is_reported _ initial_state "frobnicate" "");
    try evaluate.
  unfold recognized_actions.
  repeat (apply not_elem_of_cons; split; [discriminate|]).
  apply not_elem_of_nil.
Defined.

(** C8 as stated fails for an unknown action sent with a patient_name
    of [null]: the request faults at [.lower()] and is answered with the
    internal error and transport status 500. *)
Lemma unknown_action_counterexample :
  let null_name : gmap string json :=
    {[ "action" := JStr "frobnicate"; "patient_name" := JNull ]} in
  null_name !! "type" = None /\ null_name !! "event_type" = None
  /\ action_of null_name = Return "frobnicate"
  /\ ("frobnicate" ∉ recognized_actions)
  /\ handle_webhook_request (JObj null_name) initial_state =
       (mkResponse (JObj internal_error) 500, initial_state)
  /\ response_field
       (handle_webhook_request (JObj null_name) initial_state).1
       "message" <> Some (JStr "Unknown action: frobnicate")
  /\ status_code (handle_webhook_request (JObj null_name) initial_state).1
       <> 200%Z.
Proof.
  repeat split; try evaluate; try unequal.
  unfold recognized_actions.
  repeat (apply not_elem_of_cons; split; [discriminate|]).
  apply not_elem_of_nil.
Qed.

Lemma matching_ignores_case_witness :
  handle_webhook_request
    (JObj (<["patient_name" := JStr "JOHN SMITH"]>
             {[ "action" := JStr "confirm_appointment";
                "patient_name" := JStr "john smith" ]}))
    initial_state =
  handle_webhook_request
    (JObj {[ "action" := JStr "confirm_appointment";
             "patient_name" := JStr "john smith" ]})
    initial_state
  /\
  handle_webhook_request
    (JObj (<["action" := JStr "Confirm_Appointment"]>
             {[ "action" := JStr "confirm_appointment";
                "patient_name" := JStr "john smith" ]}))
    initial_state =
  handle_webhook_request
    (JObj {[ "action" := JStr "confirm_appointment";
             "patient_name" := JStr "john smith" ]})
    initial_state.
Proof.
  pose (p := ({[ "action" := JStr "confirm_appointment";
                 "patient_name" := JStr "john smith" ]}
              : gmap string json)).
  split.
  - apply (proj1 (matching_ignores_case p initial_state)
             "john smith" "JOHN SMITH"); evaluate.
  - apply (proj2 (matching_ignores_case p initial_state)
             "confirm_appointment" "Confirm_Appointment"); evaluate.
Defined.

(** ** The spec's remaining examples, by evaluation *)

Example confirm_then_lookup :
  let st1 :=
    (handle_webhook_request
       (JObj {[ "action" := JStr "confirm_appointment";
                "patient_name" := JStr "john smith" ]})
       initial_state).2 in
  let r :=
    (handle_webhook_request
       (JObj {[ "action" := JStr "lookup_appointment";
                "patient_name" := JStr "john smith" ]})
       st1).1 in
  response_field r "appointment" =
    Some (JObj {[ "date" := JStr "2025-07-30";
                  "time" := JStr "3:00 PM";
                  "doctor" := JStr "Dr. Clark";
                  "status" := JStr "confirmed" ]}).
Proof. evaluate. Qed.

Example title_and_split :
  PyStr.title "o'neil mc2donald" = "O'Neil Mc2Donald"
  /\ PyStr.split "  2025-08-02   9:00 AM " = ["2025-08-02"; "9:00"; "AM"]
  /\ PyStr.join " " ["9:00"; "AM"] = "9:00 AM"
  /\ PyStr.lower "JOHN Smith" = "john smith".
Proof. repeat split. Qed.

(** Whitespace beyond ASCII separates tokens like a space does, and a
    time made of it alone faults like a blank one. *)
Example split_on_unicode_whitespace :
  PyStr.split ("2025-08-02" +:+ PyStr.nbsp +:+ "9:00" +:+ PyStr.em_space
               +:+ "AM")
    = ["2025-08-02"; "9:00"; "AM"]
  /\ PyStr.split (PyStr.em_space +:+ PyStr.nbsp) = []
  /\ PyStr.only_space (PyStr.em_space +:+ PyStr.nbsp) = true
  /\ handle_webhook_request
       (JObj {[ "action" := JStr "reschedule_appointment";
                "patient_name" := JStr "jane doe";
                "appointment_time" := JStr PyStr.nbsp ]})
       initial_state =
     (mkResponse (JObj internal_error) 500, initial_state)
  /\ appointments
       (handle_webhook_request
          (JObj {[ "action" := JStr "reschedule_appointment";
                   "patient_name" := JStr "jane doe";
                   "appointment_time" :=
                     JStr ("2025-08-02" +:+ PyStr.nbsp +:+ "9:00 AM") ]})
          initial_state).2 !! "jane doe" =
     Some (mkApt "2025-08-02" "9:00 AM" "Dr. Martinez" "scheduled").
Proof. repeat split; evaluate. Qed.

(** A body that is not a dict: a list holding "type" is acknowledged, a
    number has no [in], an empty list stands for an empty dict. *)
Example bodies_that_are_not_dicts :
  (handle_webhook_request (JArr [JStr "type"]) initial_state).1 =
    mkResponse (JObj validation_ack) 200
  /\ (handle_webhook_request (JInt 7) initial_state).1 =
       mkResponse (JObj internal_error) 500
  /\ (handle_webhook_request (JArr []) initial_state).1 =
       mkResponse (JObj (unknown_action "")) 200.
Proof. repeat split. Qed.

End Instances.

(** * Beyond the contract *)

Section Effects.

Context {cases : PyStr.CaseMapping}.

Implicit Types (p : gmap string json) (st : State) (n a : string).

Lemma action_cases a :
  a = "lookup_appointment" \/ a = "check_availability"
  \/ a = "confirm_appointment" \/ a = "cancel_appointment"
  \/ a = "reschedule_appointment" \/ a ∉ recognized_actions.
Proof.
  destruct (decide (a = "lookup_appointment")); [auto|].
  destruct (decide (a = "check_availability")); [auto|].
  destruct (decide (a = "confirm_appointment")); [auto|].
  destruct (decide (a = "cancel_appointment")); [auto 6|].
  destruct (decide (a = "reschedule_appointment")); [auto 6|].
  do 5 right. unfold recognized_actions.
  repeat (apply not_elem_of_cons; split; [assumption|]).
  apply not_elem_of_nil.
Qed.

Lemma branch_unrecognized data a n st :
  a ∉ recognized_actions ->
  branch data a n st = (Return (jsonify (unknown_action a)), st).
Proof.
  unfold recognized_actions. intros Hu.
  repeat (apply not_elem_of_cons in Hu as [? Hu]).
  now apply branch_unknown.
Qed.

Lemma state_eta st : mkState (appointments st) (available_slots st) = st.
Proof. now destruct st. Qed.

(** Lines 143-156 in full. *)
Lemma branch_reschedule p n st :
  branch (JObj p) "reschedule_appointment" n st =
    match appointments st !! n with
    | None => (Return (jsonify reschedule_failed), st)
    | Some apt =>
        match p !! "appointment_time" with
        | Some (JStr s) =>
            match PyStr.split s with
            | d :: rest =>
                (Return (jsonify (rescheduled_ok n s)),
                 mkState (<[n := set_date_time d rest apt]> (appointments st))
                         (available_slots st))
            | [] =>
                if String.eqb s "" then (Return (jsonify reschedule_failed), st)
                else (Raise IndexError, st)
            end
        | Some v =>
            if truthy v then (Raise AttributeError, st)
            else (Return (jsonify reschedule_failed), st)
        | None => (Return (jsonify reschedule_failed), st)
        end
    end.
Proof.
  destruct (appointments st !! n) as [apt|] eqn:Hn.
  2:{ apply branch_reschedule_refused. now left. }
  destruct (p !! "appointment_time") as [v|] eqn:Ht.
  2:{ apply branch_reschedule_refused. right. now rewrite Ht. }
  destruct v as [| b | z | f | s | l | m];
    try (destruct (truthy _) eqn:Hv;
         [ pick_branch; run; rewrite Hn, Ht; simpl in *; now rewrite Hv
         | apply branch_reschedule_refused; right; now rewrite Ht ]).
  destruct (PyStr.split s) as [|d rest] eqn:Hs.
  - destruct (String.eqb s "") eqn:He.
    + apply branch_reschedule_refused. right. rewrite Ht. simpl. now rewrite He.
    + apply (branch_reschedule_blank p n st s); eauto.
      * intros ->. discriminate He.
      * now apply PyStrFacts.split_nil_iff.
  - now apply branch_reschedule_ok.
Qed.

Lemma alter_or_insert f n st :
  match appointments st !! n with
  | Some apt =>
      mkState (<[n := f apt]> (appointments st)) (available_slots st)
  | None => st
  end = mkState (alter f n (appointments st)) (available_slots st).
Proof.
  rewrite alter_alt. destruct (appointments st !! n); [reflexivity|].
  now rewrite state_eta.
Qed.

(** The state a dispatch leaves is the one [record_write] describes. *)
Lemma handle_state_write request_json st :
  (handle_webhook_request request_json st).2 =
    apply_write (record_write request_json) st.
Proof.
  rewrite handle_state.
  destruct request_json as [| b | z | f | s | l | p];
    try (match goal with
         | |- (try_body ?r st).2 = _ =>
             destruct (try_body_shape r st) as [Hs | (p & a & n & Hp & _)];
             [exact Hs | discriminate Hp]
         end).
  unfold record_write, has_key.
  destruct (p !! "type") as [v|] eqn:Ht.
  { rewrite try_body_ping; [reflexivity | left; eauto]. }
  destruct (p !! "event_type") as [v|] eqn:He.
  { rewrite try_body_ping; [reflexivity | right; eauto]. }
  simpl.
  destruct (action_of p) as [a|e] eqn:Ha.
  2:{ rewrite (try_body_fault p st e); auto. }
  destruct (patient_name_of p) as [n|e] eqn:Hn.
  2:{ rewrite (try_body_fault p st e); eauto. }
  rewrite (try_body_branch p st a n) by assumption.
  destruct (action_cases a) as [->|[->|[->|[->|[->|Hu]]]]].
  - rewrite branch_lookup. reflexivity.
  - rewrite branch_availability. reflexivity.
  - rewrite branch_confirm. simpl.
    rewrite <- alter_or_insert. now destruct (appointments st !! n).
  - rewrite branch_cancel. simpl.
    rewrite <- alter_or_insert. now destruct (appointments st !! n).
  - rewrite branch_reschedule. simpl.
    destruct (p !! "appointment_time") as [[| b | z | f | s | l | m]|];
      try (destruct (appointments st !! n); [|reflexivity];
           try reflexivity;
           match goal with |- context [if ?c then _ else _] =>
             now destruct c end).
    destruct (PyStr.split s) as [|d rest].
    + destruct (appointments st !! n); [|reflexivity].
      now destruct (String.eqb s "").
    + simpl. rewrite <- alter_or_insert. now destruct (appointments st !! n).
  - rewrite (branch_unrecognized _ a n st Hu). simpl.
    unfold recognized_actions in Hu.
    repeat (apply not_elem_of_cons in Hu as [? Hu]).
    repeat case_decide; try contradiction. reflexivity.
Qed.


Lemma handle_answer request_json st :
  (handle_webhook_request request_json st).1 =
    match (try_body request_json st).1 with
    | Return r => r
    | Raise _ => mkResponse (JObj internal_error) 500
    end.
Proof.
  unfold handle_webhook_request.
  now destruct (try_body request_json st) as [[r|e] st'].
Qed.

(** A body that is not a dict is answered without looking at the
    state. *)
Lemma try_body_not_dict request_json :
  (forall p, request_json <> JObj p) ->
  exists o, forall st, try_body request_json st = (o, st).
Proof.
  intros Hno. destruct (truthy request_json) eqn:Htruthy.
  2:{ eexists. intros st. now apply try_body_falsy. }
  destruct request_json as [| b | z | f | s | l | p];
    [ | | | | | | now destruct (Hno p) ];
    unfold try_body, or_empty_dict; rewrite Htruthy;
    unfold bind, lift, ret; simpl;
    repeat match goal with
      | |- context [if ?c then _ else _] => destruct c; simpl
      end;
    eexists; intros st; reflexivity.
Qed.

Lemma has_key_cases {V} (k : string) (m m' : gmap string V) :
  has_key k m = has_key k m' ->
  (m !! k = None /\ m' !! k = None)
  \/ (exists x x', m !! k = Some x /\ m' !! k = Some x').
Proof.
  unfold has_key. destruct (m !! k), (m' !! k); intros H;
    try discriminate; eauto.
Qed.

(** What a branch answers depends on the state through the slot list,
    the presence of the patient's key and, for a lookup, the patient's
    record. *)
Lemma branch_outcome_local p a n st st' :
  available_slots st = available_slots st' ->
  has_key n (appointments st) = has_key n (appointments st') ->
  (a = "lookup_appointment" ->
   appointments st !! n = appointments st' !! n) ->
  (branch (JObj p) a n st).1 = (branch (JObj p) a n st').1.
Proof.
  intros Hsl Hk Hrec.
  destruct (action_cases a) as [->|[->|[->|[->|[->|Hu]]]]].
  - rewrite !branch_lookup. simpl. now rewrite Hrec.
  - rewrite !branch_availability. simpl. now rewrite Hsl.
  - rewrite !branch_confirm.
    destruct (has_key_cases _ _ _ Hk) as [[-> ->]|(x & x' & -> & ->)];
      reflexivity.
  - rewrite !branch_cancel.
    destruct (has_key_cases _ _ _ Hk) as [[-> ->]|(x & x' & -> & ->)];
      reflexivity.
  - rewrite !branch_reschedule.
    destruct (has_key_cases _ _ _ Hk) as [[-> ->]|(x & x' & -> & ->)];
      [reflexivity|].
    destruct (p !! "appointment_time") as [[| b | z | f | s | l | m]|];
      try reflexivity;
      try (match goal with |- context [if ?c then _ else _] =>
             now destruct c end).
    destruct (PyStr.split s); [|reflexivity].
    now destruct (String.eqb s "").
  - now rewrite !(branch_unrecognized _ a n _ Hu).
Qed.

Lemma response_local request_json st st' :
  available_slots st = available_slots st' ->
  (forall p n,
     request_json = JObj p -> patient_name_of p = Return n ->
     has_key n (appointments st) = has_key n (appointments st')
     /\ (action_of p = Return "lookup_appointment" ->
         appointments st !! n = appointments st' !! n)) ->
  (handle_webhook_request request_json st).1 =
    (handle_webhook_request request_json st').1.
Proof.
  intros Hsl Hloc. rewrite !handle_answer.
  assert ((try_body request_json st).1 = (try_body request_json st').1)
    as ->; [|reflexivity].
  destruct request_json as [| b | z | f | s | l | p];
    try (match goal with
         | |- (try_body ?r st).1 = _ =>
             destruct (try_body_not_dict r ltac:(discriminate)) as [o Ho];
             now rewrite !Ho
         end).
  destruct (p !! "type") as [v|] eqn:Ht.
  { rewrite !try_body_ping; [reflexivity | left; eauto | left; eauto]. }
  destruct (p !! "event_type") as [v|] eqn:He.
  { rewrite !try_body_ping; [reflexivity | right; eauto | right; eauto]. }
  destruct (action_of p) as [a|e] eqn:Ha.
  2:{ rewrite !(try_body_fault p _ e); auto. }
  destruct (patient_name_of p) as [n|e] eqn:Hn.
  2:{ rewrite !(try_body_fault p _ e); eauto. }
  rewrite !(try_body_branch p _ a n) by assumption.
  destruct (Hloc p n eq_refl Hn) as [Hk Hrec].
  apply branch_outcome_local; try assumption.
  intros ->. now apply Hrec.
Qed.

End Effects.

Section Answers.

Context {cases : PyStr.CaseMapping}.

Implicit Types (p : gmap string json) (st : State) (n a : string).

Lemma business_jsonify (d : gmap string json) s m :
  d !! "status" = Some (JStr s) -> d !! "message" = Some (JStr m) ->
  s ∈ response_statuses -> business_response (jsonify d).
Proof. intros Hs Hm Hin. exists s, m. now repeat split. Qed.

Ltac business :=
  eapply business_jsonify;
  [ reflexivity | reflexivity
  | unfold response_statuses; repeat constructor ].

Lemma answers_well_ret (d : gmap string json) :
  business_response (jsonify d) -> answers_well (ret (jsonify d)).
Proof. intros H st. exact H. Qed.

Lemma answers_well_bind {A} (c : M A) (k : A -> M Response) :
  (forall x, answers_well (k x)) -> answers_well (bind c k).
Proof.
  intros Hk st. unfold bind.
  destruct (c st) as [[x|e] st1]; [apply Hk | exact I].
Qed.

Lemma branch_answers_well data a n : answers_well (branch data a n).
Proof.
  unfold branch.
  repeat match goal with
    | |- answers_well (if ?b then _ else _) => destruct b
    | |- answers_well (bind _ _) => apply answers_well_bind; intros ?
    | |- answers_well (ret _) => apply answers_well_ret; business
    end.
Qed.

Lemma try_body_answers_well request_json :
  answers_well (try_body request_json).
Proof.
  unfold try_body.
  repeat match goal with
    | |- answers_well (if ?b then _ else _) => destruct b
    | |- answers_well (bind _ _) => apply answers_well_bind; intros ?
    | |- answers_well (ret _) => apply answers_well_ret; business
    end.
  apply branch_answers_well.
Qed.

(** X1.  Whatever the body and the state, the response is a JSON object
    with a string "status" among received, success, not_found and error
    and a string "message"; its transport status is 200, or 500 with
    the internal-error body. *)
Theorem response_shape (request_json : json) st :
  let r := (handle_webhook_request request_json st).1 in
  exists s m,
    response_field r "status" = Some (JStr s)
    /\ response_field r "message" = Some (JStr m)
    /\ s ∈ response_statuses
    /\ (status_code r = 200%Z
        \/ (status_code r = 500%Z /\ body r = JObj internal_error)).
Proof.
  simpl. rewrite handle_answer.
  pose proof (try_body_answers_well request_json st) as H.
  destruct ((try_body request_json st).1) as [r|e].
  - destruct H as (s & m & Hs & Hm & Hin & Hc). exists s, m. auto.
  - exists "error", "Internal server error".
    repeat split; [unfold response_statuses; repeat constructor | right; auto].
Qed.

End Answers.

Section Writes.

Context {cases : PyStr.CaseMapping}.

Implicit Types (p : gmap string json) (st : State) (n a : string).

(** Past the guard the handler is the branch under the [except]
    clause. *)
Lemma handle_via_branch p st a n :
  p !! "type" = None -> p !! "event_type" = None ->
  action_of p = Return a -> patient_name_of p = Return n ->
  handle_webhook_request (JObj p) st =
    match branch (JObj p) a n st with
    | (Return r, st') => (r, st')
    | (Raise _, st') => (mkResponse (JObj internal_error) 500, st')
    end.
Proof.
  intros Ht He Ha Hn. unfold handle_webhook_request.
  now rewrite (try_body_branch p st a n).
Qed.

(** Where a write comes from. *)
Lemma record_write_inv request_json n f :
  record_write request_json = Some (n, f) ->
  exists p a,
    request_json = JObj p
    /\ p !! "type" = None /\ p !! "event_type" = None
    /\ action_of p = Return a /\ patient_name_of p = Return n
    /\ ((a = "confirm_appointment" /\ f = set_status "confirmed")
        \/ (a = "cancel_appointment" /\ f = set_status "cancelled")
        \/ (a = "reschedule_appointment"
            /\ exists s d rest,
                 p !! "appointment_time" = Some (JStr s)
                 /\ PyStr.split s = d :: rest
                 /\ f = set_date_time d rest)).
Proof.
  destruct request_json as [| | | | | |p]; try discriminate.
  unfold record_write, has_key.
  destruct (p !! "type") eqn:Ht; [discriminate|].
  destruct (p !! "event_type") eqn:He; [discriminate|]. simpl.
  destruct (action_of p) as [a|] eqn:Ha; [|discriminate].
  destruct (patient_name_of p) as [n'|] eqn:Hn; [|discriminate].
  intros H. exists p, a.
  destruct (decide (a = "confirm_appointment")) as [->|_].
  { injection H as <- <-. do 5 (split; [reflexivity || assumption|]).
    left. now split. }
  destruct (decide (a = "cancel_appointment")) as [->|_].
  { injection H as <- <-. do 5 (split; [reflexivity || assumption|]).
    right. left. now split. }
  destruct (decide (a = "reschedule_appointment")) as [->|_];
    [|discriminate].
  destruct (p !! "appointment_time") as [[| | | | s | |]|] eqn:Hat;
    try discriminate.
  destruct (PyStr.split s) as [|d rest] eqn:Hs; [discriminate|].
  injection H as <- <-. do 5 (split; [reflexivity || assumption|]).
  right. right. split; [reflexivity|]. exists s, d, rest. auto.
Qed.

Lemma patient_name_lower p n :
  patient_name_of p = Return n -> PyStr.lower n = n.
Proof.
  unfold patient_name_of, py_lower.
  destruct (from_option id (JStr "") (p !! "patient_name")); try discriminate.
  intros [= <-]. apply PyStr.lower_idempotent.
Qed.

Lemma record_write_idempotent request_json n f apt :
  record_write request_json = Some (n, f) -> f (f apt) = f apt.
Proof.
  intros H. apply record_write_inv in H
    as (p & a & _ & _ & _ & _ & _ & [[_ ->]|[[_ ->]|(_ & s & d & rest & _ & _ & ->)]]);
    reflexivity.
Qed.

Lemma record_write_doctor request_json n f apt :
  record_write request_json = Some (n, f) -> doctor (f apt) = doctor apt.
Proof.
  intros H. apply record_write_inv in H
    as (p & a & _ & _ & _ & _ & _ & [[_ ->]|[[_ ->]|(_ & s & d & rest & _ & _ & ->)]]);
    reflexivity.
Qed.

Lemma apply_write_slots w st :
  available_slots (apply_write w st) = available_slots st.
Proof. now destruct w as [[n f]|]. Qed.

Lemma apply_write_lookup w st k :
  appointments (apply_write w st) !! k =
    match w with
    | Some (n, f) =>
        if decide (n = k) then f <$> appointments st !! k
        else appointments st !! k
    | None => appointments st !! k
    end.
Proof.
  destruct w as [[n f]|]; [|reflexivity]. simpl.
  rewrite lookup_alter. case_decide; [now subst | reflexivity].
Qed.

Lemma apply_write_has_key w st k :
  has_key k (appointments (apply_write w st)) = has_key k (appointments st).
Proof.
  unfold has_key. rewrite apply_write_lookup.
  destruct w as [[n f]|]; [|reflexivity].
  case_decide; [|reflexivity]. now destruct (appointments st !! k).
Qed.

Lemma apply_write_dom w st :
  dom (appointments (apply_write w st)) = dom (appointments st).
Proof. destruct w as [[n f]|]; [apply dom_alter_L | reflexivity]. Qed.

Lemma record_write_lookup_request p :
  action_of p = Return "lookup_appointment" -> record_write (JObj p) = None.
Proof.
  intros Ha. unfold record_write. rewrite Ha.
  destruct (has_key "type" p || has_key "event_type" p); [reflexivity|].
  now destruct (patient_name_of p).
Qed.

(** X2.  A dispatch that changes the state answers success with
    transport status 200: an error, a not_found, an acknowledgement or
    an internal error has written nothing. *)
Theorem only_success_writes (request_json : json) st :
  let r := (handle_webhook_request request_json st).1 in
  let st' := (handle_webhook_request request_json st).2 in
  st' = st
  \/ (status_code r = 200%Z
      /\ response_field r "status" = Some (JStr "success")).
Proof.
  simpl.
  destruct (record_write request_json) as [[n f]|] eqn:Hw.
  2:{ left. now rewrite handle_state_write, Hw. }
  apply record_write_inv in Hw
    as (p & a & -> & Ht & He & Ha & Hn & Hcase).
  rewrite (handle_via_branch p st a n) by assumption.
  destruct Hcase as [[-> _]|[[-> _]|(-> & s & d & rest & Hat & Hs & _)]].
  - rewrite branch_confirm.
    destruct (appointments st !! n); [right | left]; now repeat split.
  - rewrite branch_cancel.
    destruct (appointments st !! n); [right | left]; now repeat split.
  - rewrite branch_reschedule, Hat, Hs.
    destruct (appointments st !! n); [right | left]; now repeat split.
Qed.

(** X3.  Repeating a request changes nothing more: served again on
    the state it left, a request gets the same response and leaves that
    state as it is. *)
Theorem repeated_request_is_idempotent (request_json : json) st :
  let st' := (handle_webhook_request request_json st).2 in
  handle_webhook_request request_json st' =
    ((handle_webhook_request request_json st).1, st').
Proof.
  simpl. apply injective_projections; simpl.
  - apply response_local.
    + now rewrite handle_state_write, apply_write_slots.
    + intros p n -> Hn. rewrite handle_state_write. split.
      * apply apply_write_has_key.
      * intros Ha. now rewrite record_write_lookup_request.
  - rewrite !handle_state_write.
    destruct (record_write request_json) as [[n f]|] eqn:Hw; [|reflexivity].
    simpl. f_equal. rewrite alter_alter_eq. apply alter_ext.
    intros apt _. apply (record_write_idempotent _ _ _ _ Hw).
Qed.

(** X4.  A dispatch leaves every record as it was, except possibly the
    one under the lower-cased patient_name of the payload. *)
Theorem only_the_named_record_changes (request_json : json) st k :
  let st' := (handle_webhook_request request_json st).2 in
  appointments st' !! k = appointments st !! k
  \/ exists p, request_json = JObj p /\ patient_name_of p = Return k.
Proof.
  simpl. rewrite handle_state_write, apply_write_lookup.
  destruct (record_write request_json) as [[n f]|] eqn:Hw; [|now left].
  case_decide; [|now left]. subst k. right.
  apply record_write_inv in Hw as (p & a & -> & _ & _ & _ & Hn & _).
  eauto.
Qed.

(** X5.  A record that is there stays there with its doctor; a
    dispatch changes either its status, to confirmed or cancelled, or
    its date and time, the new date being one token, never both. *)
Theorem record_changes_one_aspect (request_json : json) st k apt :
  appointments st !! k = Some apt ->
  exists apt',
    appointments (handle_webhook_request request_json st).2 !! k = Some apt'
    /\ doctor apt' = doctor apt
    /\ ((date apt' = date apt /\ time apt' = time apt
         /\ (status apt' = status apt \/ status apt' = "confirmed"
             \/ status apt' = "cancelled"))
        \/ (status apt' = status apt /\ PyStr.is_token (date apt'))).
Proof.
  intros Hk. rewrite handle_state_write, apply_write_lookup, Hk.
  destruct (record_write request_json) as [[n f]|] eqn:Hw.
  2:{ exists apt. repeat split; auto. }
  case_decide.
  2:{ exists apt. repeat split; auto. }
  simpl. exists (f apt). split; [reflexivity|].
  apply record_write_inv in Hw
    as (p & a & _ & _ & _ & _ & _ &
        [[_ ->]|[[_ ->]|(_ & s & d & rest & _ & Hs & ->)]]);
    simpl; split; auto 6.
  right. split; [reflexivity|].
  pose proof (PyStrFacts.split_tokens s) as Htok. rewrite Hs in Htok.
  now inversion Htok.
Qed.

(** X6.  A key that is not its own lower-casing is out of reach: no
    request changes the record stored under it. *)
Theorem capitalised_keys_are_out_of_reach (request_json : json) st k :
  PyStr.lower k <> k ->
  appointments (handle_webhook_request request_json st).2 !! k =
    appointments st !! k.
Proof.
  intros Hk. rewrite handle_state_write, apply_write_lookup.
  destruct (record_write request_json) as [[n f]|] eqn:Hw; [|reflexivity].
  case_decide; [|reflexivity]. subst k.
  apply record_write_inv in Hw as (p & a & _ & _ & _ & _ & Hn & _).
  now apply patient_name_lower in Hn.
Qed.

End Writes.

Section Composition.

Context {cases : PyStr.CaseMapping}.

Implicit Types (p q : gmap string json) (st : State) (n a : string).

Lemma record_write_status p n :
  p !! "type" = None -> p !! "event_type" = None ->
  patient_name_of p = Return n ->
  (action_of p = Return "confirm_appointment" ->
   record_write (JObj p) = Some (n, set_status "confirmed"))
  /\ (action_of p = Return "cancel_appointment" ->
      record_write (JObj p) = Some (n, set_status "cancelled")).
Proof.
  intros Ht He Hn. unfold record_write, has_key. rewrite Ht, He, Hn.
  split; intros ->; reflexivity.
Qed.

Lemma record_write_reschedule p n s :
  p !! "type" = None -> p !! "event_type" = None ->
  action_of p = Return "reschedule_appointment" ->
  patient_name_of p = Return n ->
  p !! "appointment_time" = Some (JStr s) ->
  record_write (JObj p) =
    match PyStr.split s with
    | d :: rest => Some (n, set_date_time d rest)
    | [] => None
    end.
Proof.
  intros Ht He Ha Hn Hat. unfold record_write, has_key.
  now rewrite Ht, He, Ha, Hn, Hat.
Qed.

Lemma record_write_target p n m f :
  patient_name_of p = Return n ->
  record_write (JObj p) = Some (m, f) -> m = n.
Proof.
  intros Hn Hw.
  apply record_write_inv in Hw as (p' & a & [= <-] & _ & _ & _ & Hm & _).
  congruence.
Qed.

Lemma serve_step request_json requests st :
  serve (request_json :: requests) st =
    serve requests (apply_write (record_write request_json) st).
Proof. simpl. now rewrite handle_state_write. Qed.

Lemma serve_slots (requests : list json) st :
  available_slots (serve requests st) = available_slots st.
Proof.
  revert st. induction requests as [|r requests IH]; intros st;
    [reflexivity|].
  now rewrite serve_step, IH, apply_write_slots.
Qed.

(** X7.  Over any sequence of requests the slot list, the set of
    registry keys and the doctor of every record stay what they were at
    the start. *)
Theorem serving_keeps_slots_keys_and_doctors (requests : list json) st :
  available_slots (serve requests st) = available_slots st
  /\ dom (appointments (serve requests st)) = dom (appointments st)
  /\ forall k,
       doctor <$> appointments (serve requests st) !! k =
         doctor <$> appointments st !! k.
Proof.
  revert st. induction requests as [|r requests IH]; intros st.
  - auto.
  - rewrite serve_step.
    destruct (IH (apply_write (record_write r) st)) as (Hs & Hd & Hdoc).
    rewrite Hs, Hd, apply_write_slots, apply_write_dom.
    split; [reflexivity|]. split; [reflexivity|].
    intros k. rewrite Hdoc, apply_write_lookup.
    destruct (record_write r) as [[n f]|] eqn:Hw; [|reflexivity].
    case_decide; [|reflexivity].
    destruct (appointments st !! k) as [apt|]; [|reflexivity]. simpl.
    f_equal. apply (record_write_doctor _ _ _ _ Hw).
Qed.

(** X8.  If every record's status is scheduled, confirmed or cancelled,
    it is so again after any sequence of requests. *)
Theorem serving_keeps_status_values (requests : list json) st :
  (forall k apt,
     appointments st !! k = Some apt -> status apt ∈ status_values) ->
  forall k apt,
    appointments (serve requests st) !! k = Some apt ->
    status apt ∈ status_values.
Proof.
  revert st. induction requests as [|r requests IH]; intros st Hst;
    [exact Hst|].
  rewrite serve_step. apply IH. intros k apt.
  rewrite apply_write_lookup.
  destruct (record_write r) as [[n f]|] eqn:Hw; [|apply Hst].
  case_decide; [|apply Hst].
  destruct (appointments st !! k) as [apt0|] eqn:Hk; [|discriminate].
  intros [= <-]. specialize (Hst k apt0 Hk).
  apply record_write_inv in Hw
    as (p & a & _ & _ & _ & _ & _ &
        [[_ ->]|[[_ ->]|(_ & s & d & rest & _ & _ & ->)]]);
    simpl; unfold status_values; [repeat constructor .. | exact Hst].
Qed.

Lemma response_own_record p n st st' :
  patient_name_of p = Return n ->
  appointments st !! n = appointments st' !! n ->
  available_slots st = available_slots st' ->
  (handle_webhook_request (JObj p) st).1 =
    (handle_webhook_request (JObj p) st').1.
Proof.
  intros Hn Hrec Hsl. apply response_local; [assumption|].
  intros p' n' [= <-] Hn'. rewrite Hn in Hn'. injection Hn' as <-.
  split; [|auto]. unfold has_key. now rewrite Hrec.
Qed.

(** X9.  The response to a payload depends on the state only through
    the slot list and the record under the payload's own lower-cased
    patient_name. *)
Theorem response_depends_on_own_record p n st st' :
  patient_name_of p = Return n ->
  appointments st !! n = appointments st' !! n ->
  available_slots st = available_slots st' ->
  (handle_webhook_request (JObj p) st).1 =
    (handle_webhook_request (JObj p) st').1.
Proof. apply response_own_record. Qed.

(** X10.  Requests for two different patients do not interfere:
    served in either order they leave the same state, and each gets the
    response it would get if served alone. *)
Theorem requests_for_different_patients_commute p q n m st :
  patient_name_of p = Return n ->
  patient_name_of q = Return m ->
  n <> m ->
  let after_p := handle_webhook_request (JObj p) st in
  let after_q := handle_webhook_request (JObj q) st in
  let q_after_p := handle_webhook_request (JObj q) after_p.2 in
  let p_after_q := handle_webhook_request (JObj p) after_q.2 in
  q_after_p.2 = p_after_q.2
  /\ q_after_p.1 = after_q.1
  /\ p_after_q.1 = after_p.1.
Proof.
  intros Hn Hm Hne. simpl. repeat split.
  - rewrite !handle_state_write.
    destruct (record_write (JObj p)) as [[n' f]|] eqn:Hp;
      destruct (record_write (JObj q)) as [[m' g]|] eqn:Hq;
      try reflexivity.
    apply (record_write_target p n) in Hp; [|assumption].
    apply (record_write_target q m) in Hq; [|assumption]. subst n' m'.
    simpl. f_equal. apply alter_alter_ne. congruence.
  - symmetry. apply (response_own_record q m); [assumption| |].
    + rewrite handle_state_write, apply_write_lookup.
      destruct (record_write (JObj p)) as [[n' f]|] eqn:Hp; [|reflexivity].
      apply (record_write_target p n) in Hp; [|assumption]. subst n'.
      now rewrite decide_False.
    + now rewrite handle_state_write, apply_write_slots.
  - symmetry. apply (response_own_record p n); [assumption| |].
    + rewrite handle_state_write, apply_write_lookup.
      destruct (record_write (JObj q)) as [[m' g]|] eqn:Hq; [|reflexivity].
      apply (record_write_target q m) in Hq; [|assumption]. subst m'.
      rewrite decide_False; [reflexivity | congruence].
    + now rewrite handle_state_write, apply_write_slots.
Qed.

Lemma lookup_answer q n st :
  q !! "type" = None -> q !! "event_type" = None ->
  action_of q = Return "lookup_appointment" ->
  patient_name_of q = Return n ->
  (handle_webhook_request (JObj q) st).1 =
    match appointments st !! n with
    | Some apt => jsonify (lookup_found n apt)
    | None => jsonify (lookup_not_found n)
    end.
Proof.
  intros Ht He Ha Hn.
  rewrite (handle_via_branch q st _ n Ht He Ha Hn), branch_lookup.
  reflexivity.
Qed.

(** X11.  Confirm (respectively cancel) a known patient, then look the
    patient up: the lookup reports the stored date, time and doctor
    with the status confirmed (respectively cancelled). *)
Theorem status_write_then_lookup p q n apt st :
  p !! "type" = None -> p !! "event_type" = None ->
  q !! "type" = None -> q !! "event_type" = None ->
  patient_name_of p = Return n ->
  patient_name_of q = Return n ->
  action_of q = Return "lookup_appointment" ->
  appointments st !! n = Some apt ->
  (action_of p = Return "confirm_appointment" ->
   response_field
     (handle_webhook_request (JObj q)
        (handle_webhook_request (JObj p) st).2).1
     "appointment" =
   Some (JObj {[ "date" := JStr (date apt);
                 "time" := JStr (time apt);
                 "doctor" := JStr (doctor apt);
                 "status" := JStr "confirmed" ]}))
  /\
  (action_of p = Return "cancel_appointment" ->
   response_field
     (handle_webhook_request (JObj q)
        (handle_webhook_request (JObj p) st).2).1
     "appointment" =
   Some (JObj {[ "date" := JStr (date apt);
                 "time" := JStr (time apt);
                 "doctor" := JStr (doctor apt);
                 "status" := JStr "cancelled" ]})).
Proof.
  intros Htp Hep Htq Heq Hnp Hnq Haq Hk.
  destruct (record_write_status p n Htp Hep Hnp) as [Hc Hx].
  split; intros Hap;
    rewrite (lookup_answer q n _ Htq Heq Haq Hnq), handle_state_write;
    [rewrite (Hc Hap) | rewrite (Hx Hap)];
    rewrite apply_write_lookup, decide_True, Hk by reflexivity;
    reflexivity.
Qed.

(** X12.  Reschedule a known patient with a time that has a first token
    [d] and further tokens [rest], then look the patient up: the lookup
    reports date [d], time [rest] joined by single spaces (empty when
    there is no further token) and the doctor and status as before. *)
Theorem reschedule_then_lookup p q n apt s d rest st :
  p !! "type" = None -> p !! "event_type" = None ->
  q !! "type" = None -> q !! "event_type" = None ->
  patient_name_of p = Return n ->
  patient_name_of q = Return n ->
  action_of p = Return "reschedule_appointment" ->
  action_of q = Return "lookup_appointment" ->
  appointments st !! n = Some apt ->
  p !! "appointment_time" = Some (JStr s) ->
  PyStr.split s = d :: rest ->
  response_field
    (handle_webhook_request (JObj q)
       (handle_webhook_request (JObj p) st).2).1
    "appointment" =
  Some (JObj {[ "date" := JStr d;
                "time" := JStr (PyStr.join " " rest);
                "doctor" := JStr (doctor apt);
                "status" := JStr (status apt) ]}).
Proof.
  intros Htp Hep Htq Heq Hnp Hnq Hap Haq Hk Hat Hs.
  rewrite (lookup_answer q n _ Htq Heq Haq Hnq), handle_state_write.
  rewrite (record_write_reschedule p n s Htp Hep Hap Hnp Hat), Hs.
  rewrite apply_write_lookup, decide_True, Hk by reflexivity.
  reflexivity.
Qed.

End Composition.

Section Edges.

Context {cases : PyStr.CaseMapping}.

Implicit Types (p q : gmap string json) (st : State) (n a : string).

(** X13.  A successful reschedule keeps exactly the tokens of
    appointment_time: the stored date and time, put together with one
    space, split into the same tokens as the string that was sent. *)
Theorem reschedule_stores_the_tokens p n apt s st :
  p !! "type" = None -> p !! "event_type" = None ->
  action_of p = Return "reschedule_appointment" ->
  patient_name_of p = Return n ->
  appointments st !! n = Some apt ->
  p !! "appointment_time" = Some (JStr s) ->
  PyStr.only_space s = false ->
  exists apt',
    appointments (handle_webhook_request (JObj p) st).2 !! n = Some apt'
    /\ PyStr.split (date apt' +:+ " " +:+ time apt') = PyStr.split s.
Proof.
  intros Ht He Ha Hn Hk Hat Hns.
  destruct (PyStrFacts.split_cons s Hns) as (d & rest & Hs).
  pose proof (PyStrFacts.split_tokens s) as Htok. rewrite Hs in Htok.
  apply Forall_cons in Htok as [Hd Hrest].
  exists (set_date_time d rest apt). split.
  - rewrite handle_state_write.
    rewrite (record_write_reschedule p n s Ht He Ha Hn Hat), Hs.
    now rewrite apply_write_lookup, decide_True, Hk by reflexivity.
  - simpl. rewrite Hs, PyStrFacts.split_token_then_space by assumption.
    now rewrite PyStrFacts.split_join.
Qed.

(** X14.  Only the tokens of appointment_time matter to the state: two
    reschedule payloads for the same patient whose times split into the
    same tokens leave the same state. *)
Theorem reschedule_ignores_spacing p q n s s' st :
  p !! "type" = None -> p !! "event_type" = None ->
  q !! "type" = None -> q !! "event_type" = None ->
  action_of p = Return "reschedule_appointment" ->
  action_of q = Return "reschedule_appointment" ->
  patient_name_of p = Return n ->
  patient_name_of q = Return n ->
  p !! "appointment_time" = Some (JStr s) ->
  q !! "appointment_time" = Some (JStr s') ->
  PyStr.split s = PyStr.split s' ->
  (handle_webhook_request (JObj p) st).2 =
    (handle_webhook_request (JObj q) st).2.
Proof.
  intros Htp Hep Htq Heq Hap Haq Hnp Hnq Hs Hs' Heq_tokens.
  rewrite !handle_state_write.
  rewrite (record_write_reschedule p n s), (record_write_reschedule q n s')
    by assumption.
  now rewrite Heq_tokens.
Qed.

(** X15.  The last status write wins: after a confirm or cancel for a
    patient, a second confirm or cancel for the same patient leaves the
    state it would leave on its own. *)
Theorem last_status_write_wins p q n st :
  p !! "type" = None -> p !! "event_type" = None ->
  q !! "type" = None -> q !! "event_type" = None ->
  patient_name_of p = Return n ->
  patient_name_of q = Return n ->
  action_of p = Return "confirm_appointment"
    \/ action_of p = Return "cancel_appointment" ->
  action_of q = Return "confirm_appointment"
    \/ action_of q = Return "cancel_appointment" ->
  (handle_webhook_request (JObj q)
     (handle_webhook_request (JObj p) st).2).2 =
    (handle_webhook_request (JObj q) st).2.
Proof.
  intros Htp Hep Htq Heq Hnp Hnq Hap Haq.
  destruct (record_write_status p n Htp Hep Hnp) as [Hpc Hpx].
  destruct (record_write_status q n Htq Heq Hnq) as [Hqc Hqx].
  rewrite !handle_state_write.
  destruct Hap as [Hap|Hap]; [rewrite (Hpc Hap) | rewrite (Hpx Hap)];
    (destruct Haq as [Haq|Haq]; [rewrite (Hqc Haq) | rewrite (Hqx Haq)]);
    simpl; f_equal; rewrite alter_alter_eq; now apply alter_ext.
Qed.

(** X16.  A status write and a reschedule for the same patient touch
    different fields: served in either order they leave the same
    state. *)
Theorem status_write_and_reschedule_commute p q n st :
  p !! "type" = None -> p !! "event_type" = None ->
  q !! "type" = None -> q !! "event_type" = None ->
  patient_name_of p = Return n ->
  patient_name_of q = Return n ->
  action_of p = Return "confirm_appointment"
    \/ action_of p = Return "cancel_appointment" ->
  action_of q = Return "reschedule_appointment" ->
  (handle_webhook_request (JObj q)
     (handle_webhook_request (JObj p) st).2).2 =
    (handle_webhook_request (JObj p)
       (handle_webhook_request (JObj q) st).2).2.
Proof.
  intros Htp Hep Htq Heq Hnp Hnq Hap Haq.
  destruct (record_write_status p n Htp Hep Hnp) as [Hpc Hpx].
  rewrite !handle_state_write.
  destruct (record_write (JObj q)) as [[m g]|] eqn:Hq; [|reflexivity].
  pose proof (record_write_target q n m g Hnq Hq) as ->.
  apply record_write_inv in Hq
    as (q' & a & [= <-] & _ & _ & Ha & _ & Hcase).
  rewrite Haq in Ha. injection Ha as <-.
  destruct Hcase as [[? _]|[[? _]|(_ & s & d & rest & _ & _ & ->)]];
    try discriminate.
  destruct Hap as [Hap|Hap]; [rewrite (Hpc Hap) | rewrite (Hpx Hap)];
    simpl; f_equal; rewrite !alter_alter_eq; now apply alter_ext.
Qed.

(** X17.  An empty body, that is null, false, zero, the empty string,
    the empty list or the empty object, is read as an empty dict: the
    answer is the unknown-action error for the empty action, and the
    state is left as it was. *)
Theorem empty_body_is_unknown_action (request_json : json) st :
  truthy request_json = false ->
  handle_webhook_request request_json st =
    (mkResponse
       (JObj {[ "status" := JStr "error";
                "message" := JStr "Unknown action: " ]})
       200,
     st).
Proof.
  intros H. apply handle_return. now apply try_body_falsy.
Qed.

(** X18.  A non-empty body that is not a JSON object never reaches a
    branch: it is acknowledged (a list holding, or a string containing,
    "type" or "event_type") or answered with the internal error, and
    the state is left as it was. *)
Theorem body_that_is_not_a_dict (request_json : json) st :
  (forall p, request_json <> JObj p) ->
  truthy request_json = true ->
  handle_webhook_request request_json st =
    (mkResponse (JObj validation_ack) 200, st)
  \/ handle_webhook_request request_json st =
       (mkResponse (JObj internal_error) 500, st).
Proof.
  intros Hno Htruthy. unfold handle_webhook_request.
  destruct request_json as [| b | z | f | s | l | p];
    [ | | | | | | now destruct (Hno p) ];
    unfold try_body, or_empty_dict; rewrite Htruthy;
    unfold bind, lift, ret; simpl;
    repeat match goal with
      | |- context [if ?c then _ else _] => destruct c; simpl
      end; auto.
Qed.

(** X19.  For a known patient the type of appointment_time decides: a
    value that is not a string and is empty in Python's sense (null,
    false, zero, an empty list or object) gets the reschedule error,
    any other value that is not a string gets the internal error; the
    state is left as it was in both cases. *)
Theorem reschedule_time_that_is_not_a_string p n v st :
  p !! "type" = None -> p !! "event_type" = None ->
  action_of p = Return "reschedule_appointment" ->
  patient_name_of p = Return n ->
  is_Some (appointments st !! n) ->
  p !! "appointment_time" = Some v ->
  (forall s, v <> JStr s) ->
  handle_webhook_request (JObj p) st =
    (if truthy v then
       mkResponse
         (JObj {[ "status" := JStr "error";
                  "message" := JStr "Internal server error" ]})
         500
     else
       mkResponse
         (JObj {[ "status" := JStr "error";
                  "message" := JStr "Could not reschedule appointment" ]})
         200,
     st).
Proof.
  intros Ht He Ha Hn [apt Hk] Hat Hv.
  rewrite (handle_via_branch p st _ n Ht He Ha Hn).
  rewrite branch_reschedule, Hk, Hat.
  destruct v as [| b | z | f | s | l | m];
    try (now destruct (Hv s));
    try reflexivity;
    match goal with |- context [if ?c then _ else _] => now destruct c end.
Qed.

(** X20.  An action or a patient_name that is present and not a string
    is an internal error, whatever the rest of the payload says, and
    the state is left as it was. *)
Theorem field_that_is_not_a_string p st :
  p !! "type" = None -> p !! "event_type" = None ->
  (exists v, p !! "action" = Some v /\ forall s, v <> JStr s)
  \/ (exists v, p !! "patient_name" = Some v /\ forall s, v <> JStr s) ->
  handle_webhook_request (JObj p) st =
    (mkResponse
       (JObj {[ "status" := JStr "error";
                "message" := JStr "Internal server error" ]})
       500,
     st).
Proof.
  intros Ht He H.
  assert (forall key v, p !! key = Some v -> (forall s, v <> JStr s) ->
            py_lower (from_option id (JStr "") (p !! key))
            = Raise AttributeError) as Hraise.
  { intros key v -> Hv. destruct v; try reflexivity. now destruct (Hv s). }
  destruct (action_of p) as [a|e] eqn:Ha.
  - destruct H as [(v & Hv & Hns)|(v & Hv & Hns)].
    + unfold action_of in Ha. rewrite (Hraise _ _ Hv Hns) in Ha.
      discriminate.
    + apply (handle_raise _ _ AttributeError), try_body_fault; auto.
      right. exists a. split; [assumption|]. now apply (Hraise _ v).
  - apply (handle_raise _ _ e), try_body_fault; auto.
Qed.

(** X21.  At any point of a run that starts from the module's globals,
    an availability check past the guard answers the same three
    slots. *)
Theorem availability_is_the_same_all_along (requests : list json) p n :
  p !! "type" = None -> p !! "event_type" = None ->
  action_of p = Return "check_availability" ->
  patient_name_of p = Return n ->
  (handle_webhook_request (JObj p) (serve requests initial_state)).1 =
    mkResponse
      (JObj {[ "status" := JStr "success";
               "available_slots" :=
                 JArr [ JStr "2025-07-29 2:00 PM";
                        JStr "2025-07-30 10:00 AM";
                        JStr "2025-07-30 4:00 PM" ];
               "message" := JStr "Here are some available times" ]})
      200.
Proof.
  intros Ht He Ha Hn.
  rewrite (handle_via_branch p _ _ n Ht He Ha Hn), branch_availability.
  now rewrite serve_slots.
Qed.

End Edges.

Section Views.

Implicit Types (name : string).

Lemma header_values_add key value name (r : HttpResponse) :
  header_values name (headers_add key value r) =
    (header_values name r
     ++ (if decide (key = name) then [value] else []))%list.
Proof.
  unfold header_values, headers_add. simpl.
  rewrite filter_app, fmap_app. f_equal.
  rewrite filter_cons, filter_nil. simpl. now case_decide.
Qed.

(** X23.  The response hook adds and never replaces: it leaves the
    answer and every header already there, and puts its own value after
    them under each of its four names, so a response that comes with a
    Content-Type leaves with two. *)
Theorem after_request_adds_never_replaces (response : HttpResponse) name :
  answer (after_request response) = answer response
  /\ header_values name (after_request response) =
       (header_values name response
        ++ (if decide (name = "Access-Control-Allow-Origin") then ["*"]
            else if decide (name = "Access-Control-Allow-Headers") then
              ["Content-Type,Authorization"]
            else if decide (name = "Access-Control-Allow-Methods") then
              ["GET,PUT,POST,DELETE,OPTIONS"]
            else if decide (name = "Content-Type") then
              ["application/json"]
            else []))%list.
Proof.
  split; [reflexivity|]. unfold after_request.
  rewrite !header_values_add, <- !app_assoc. f_equal.
  repeat case_decide; subst; try discriminate; try reflexivity;
    congruence.
Qed.

End Views.

(** * The further properties at concrete requests *)

Section FurtherInstances.

(** Action and patient_name are again written in ASCII. *)
#[local] Existing Instance PyStr.ascii_cases.

Ltac by_evaluation := vm_compute; reflexivity.

Ltac side :=
  first [ by_evaluation
        | discriminate
        | (intros; discriminate)
        | (eexists; by_evaluation)
        | (vm_compute; discriminate) ].

Lemma record_changes_one_aspect_witness :
  exists apt',
    appointments
      (handle_webhook_request
         (JObj {[ "action" := JStr "reschedule_appointment";
                  "patient_name" := JStr "jane doe";
                  "appointment_time" := JStr "2025-08-02 9:00 AM" ]})
         initial_state).2 !! "jane doe" = Some apt'
    /\ doctor apt' = doctor jane_doe
    /\ ((date apt' = date jane_doe /\ time apt' = time jane_doe
         /\ (status apt' = status jane_doe \/ status apt' = "confirmed"
             \/ status apt' = "cancelled"))
        \/ (status apt' = status jane_doe /\ PyStr.is_token (date apt'))).
Proof. apply record_changes_one_aspect. by_evaluation. Defined.

Lemma capitalised_keys_are_out_of_reach_witness :
  appointments
    (handle_webhook_request
       (JObj {[ "action" := JStr "cancel_appointment";
                "patient_name" := JStr "John Smith" ]})
       (mkState {[ "John Smith" := john_smith ]} initial_slots)).2
    !! "John Smith" = Some john_smith.
Proof.
  rewrite capitalised_keys_are_out_of_reach; side.
Defined.

Lemma serving_keeps_status_values_witness :
  status (mkApt "2025-08-04" "8:30 AM" "Dr. Clark" "confirmed")
    ∈ status_values.
Proof.
  apply (serving_keeps_status_values
           [ JObj {[ "action" := JStr "confirm_appointment";
                     "patient_name" := JStr "john smith" ]};
             JObj {[ "action" := JStr "reschedule_appointment";
                     "patient_name" := JStr "john smith";
                     "appointment_time" := JStr "2025-08-04 8:30 AM" ]};
             JObj {[ "action" := JStr "cancel_appointment";
                     "patient_name" := JStr "jane doe" ]} ]
           initial_state) with (k := "john smith"); [|by_evaluation].
  intros k apt H.
  unfold initial_state, initial_appointments in H. simpl in H.
  apply lookup_insert_Some in H as [[_ <-]|[_ H]].
  - unfold status_values. repeat constructor.
  - apply lookup_singleton_Some in H as [_ <-].
    unfold status_values. repeat constructor.
Defined.

Lemma response_depends_on_own_record_witness :
  (handle_webhook_request
     (JObj {[ "action" := JStr "lookup_appointment";
              "patient_name" := JStr "john smith" ]})
     initial_state).1 =
  (handle_webhook_request
     (JObj {[ "action" := JStr "lookup_appointment";
              "patient_name" := JStr "john smith" ]})
     (mkState (<["jane doe" := set_status "cancelled" jane_doe]>
                 initial_appointments)
              initial_slots)).1.
Proof.
  apply (response_depends_on_own_record _ "john smith"); side.
Defined.

Lemma requests_for_different_patients_commute_witness :
  let p : gmap string json :=
    {[ "action" := JStr "confirm_appointment";
       "patient_name" := JStr "john smith" ]} in
  let q : gmap string json :=
    {[ "action" := JStr "reschedule_appointment";
       "patient_name" := JStr "jane doe";
       "appointment_time" := JStr "2025-08-02 9:00 AM" ]} in
  let after_p := handle_webhook_request (JObj p) initial_state in
  let after_q := handle_webhook_request (JObj q) initial_state in
  let q_after_p := handle_webhook_request (JObj q) after_p.2 in
  let p_after_q := handle_webhook_request (JObj p) after_q.2 in
  q_after_p.2 = p_after_q.2
  /\ q_after_p.1 = after_q.1
  /\ p_after_q.1 = after_p.1.
Proof.
  intros p q.
  apply (requests_for_different_patients_commute
           p q "john smith" "jane doe"); side.
Defined.

Lemma status_write_then_lookup_witness :
  response_field
    (handle_webhook_request
       (JObj {[ "action" := JStr "lookup_appointment";
                "patient_name" := JStr "JOHN SMITH" ]})
       (handle_webhook_request
          (JObj {[ "action" := JStr "cancel_appointment";
                   "patient_name" := JStr "John Smith" ]})
          initial_state).2).1
    "appointment" =
  Some (JObj {[ "date" := JStr "2025-07-30";
                "time" := JStr "3:00 PM";
                "doctor" := JStr "Dr. Clark";
                "status" := JStr "cancelled" ]}).
Proof.
  pose (p := ({[ "action" := JStr "cancel_appointment";
                 "patient_name" := JStr "John Smith" ]}
              : gmap string json)).
  pose (q := ({[ "action" := JStr "lookup_appointment";
                 "patient_name" := JStr "JOHN SMITH" ]}
              : gmap string json)).
  apply (proj2 (status_write_then_lookup p q "john smith" john_smith
                  initial_state
                  ltac:(side) ltac:(side) ltac:(side) ltac:(side)
                  ltac:(side) ltac:(side) ltac:(side) ltac:(side))).
  by_evaluation.
Defined.

(** A time of one token leaves the stored time empty. *)
Lemma reschedule_then_lookup_witness :
  response_field
    (handle_webhook_request
       (JObj {[ "action" := JStr "lookup_appointment";
                "patient_name" := JStr "jane doe" ]})
       (handle_webhook_request
          (JObj {[ "action" := JStr "reschedule_appointment";
                   "patient_name" := JStr "jane doe";
                   "appointment_time" := JStr "tomorrow" ]})
          initial_state).2).1
    "appointment" =
  Some (JObj {[ "date" := JStr "tomorrow";
                "time" := JStr "";
                "doctor" := JStr "Dr. Martinez";
                "status" := JStr "scheduled" ]}).
Proof.
  pose (p := ({[ "action" := JStr "reschedule_appointment";
                 "patient_name" := JStr "jane doe";
                 "appointment_time" := JStr "tomorrow" ]}
              : gmap string json)).
  pose (q := ({[ "action" := JStr "lookup_appointment";
                 "patient_name" := JStr "jane doe" ]}
              : gmap string json)).
  apply (reschedule_then_lookup p q "jane doe" jane_doe
           "tomorrow" "tomorrow" [] initial_state); side.
Defined.

Lemma reschedule_stores_the_tokens_witness :
  exists apt',
    appointments
      (handle_webhook_request
         (JObj {[ "action" := JStr "reschedule_appointment";
                  "patient_name" := JStr "jane doe";
                  "appointment_time" := JStr "  2025-08-02   9:00 AM " ]})
         initial_state).2 !! "jane doe" = Some apt'
    /\ PyStr.split (date apt' +:+ " " +:+ time apt') =
         PyStr.split "  2025-08-02   9:00 AM ".
Proof.
  apply (reschedule_stores_the_tokens _ "jane doe" jane_doe); side.
Defined.

Lemma reschedule_ignores_spacing_witness :
  (handle_webhook_request
     (JObj {[ "action" := JStr "reschedule_appointment";
              "patient_name" := JStr "jane doe";
              "appointment_time" := JStr "  2025-08-02   9:00 AM " ]})
     initial_state).2 =
  (handle_webhook_request
     (JObj {[ "action" := JStr "reschedule_appointment";
              "patient_name" := JStr "jane doe";
              "appointment_time" := JStr "2025-08-02 9:00 AM" ]})
     initial_state).2.
Proof.
  apply (reschedule_ignores_spacing _ _ "jane doe"
           "  2025-08-02   9:00 AM " "2025-08-02 9:00 AM"); side.
Defined.

Lemma last_status_write_wins_witness :
  (handle_webhook_request
     (JObj {[ "action" := JStr "cancel_appointment";
              "patient_name" := JStr "john smith" ]})
     (handle_webhook_request
        (JObj {[ "action" := JStr "confirm_appointment";
                 "patient_name" := JStr "john smith" ]})
        initial_state).2).2 =
  (handle_webhook_request
     (JObj {[ "action" := JStr "cancel_appointment";
              "patient_name" := JStr "john smith" ]})
     initial_state).2.
Proof.
  apply (last_status_write_wins _ _ "john smith"); try side.
  - left. by_evaluation.
  - right. by_evaluation.
Defined.

Lemma status_write_and_reschedule_commute_witness :
  let p : gmap string json :=
    {[ "action" := JStr "confirm_appointment";
       "patient_name" := JStr "jane doe" ]} in
  let q : gmap string json :=
    {[ "action" := JStr "reschedule_appointment";
       "patient_name" := JStr "jane doe";
       "appointment_time" := JStr "2025-08-02 9:00 AM" ]} in
  (handle_webhook_request (JObj q)
     (handle_webhook_request (JObj p) initial_state).2).2 =
  (handle_webhook_request (JObj p)
     (handle_webhook_request (JObj q) initial_state).2).2.
Proof.
  intros p q.
  apply (status_write_and_reschedule_commute p q "jane doe"); try side.
  left. by_evaluation.
Defined.

Lemma empty_body_is_unknown_action_witness :
  handle_webhook_request (JArr []) initial_state =
    (mkResponse
       (JObj {[ "status" := JStr "error";
                "message" := JStr "Unknown action: " ]})
       200,
     initial_state).
Proof. apply empty_body_is_unknown_action. by_evaluation. Defined.

Lemma body_that_is_not_a_dict_witness :
  handle_webhook_request (JStr "confirm_appointment") initial_state =
    (mkResponse (JObj validation_ack) 200, initial_state)
  \/ handle_webhook_request (JStr "confirm_appointment") initial_state =
       (mkResponse (JObj internal_error) 500, initial_state).
Proof. apply body_that_is_not_a_dict; side. Defined.

Lemma reschedule_time_that_is_not_a_string_witness :
  handle_webhook_request
    (JObj {[ "action" := JStr "reschedule_appointment";
             "patient_name" := JStr "jane doe";
             "appointment_time" := JInt 1754121600 ]})
    initial_state =
  (mkResponse
     (JObj {[ "status" := JStr "error";
              "message" := JStr "Internal server error" ]})
     500,
   initial_state).
Proof.
  pose (p := ({[ "action" := JStr "reschedule_appointment";
                 "patient_name" := JStr "jane doe";
                 "appointment_time" := JInt 1754121600 ]}
              : gmap string json)).
  apply (reschedule_time_that_is_not_a_string p "jane doe"
           (JInt 1754121600) initial_state); side.
Defined.

Lemma field_that_is_not_a_string_witness :
  handle_webhook_request
    (JObj {[ "action" := JStr "lookup_appointment";
             "patient_name" := JNull ]})
    initial_state =
  (mkResponse
     (JObj {[ "status" := JStr "error";
              "message" := JStr "Internal server error" ]})
     500,
   initial_state).
Proof.
  apply field_that_is_not_a_string; try side.
  right. exists JNull. split; side.
Defined.

Lemma availability_is_the_same_all_along_witness :
  (handle_webhook_request
     (JObj {[ "action" := JStr "check_availability" ]})
     (serve
        [ JObj {[ "action" := JStr "reschedule_appointment";
                  "patient_name" := JStr "jane doe";
                  "appointment_time" := JStr "2025-07-29 2:00 PM" ]} ]
        initial_state)).1 =
  mkResponse
    (JObj {[ "status" := JStr "success";
             "available_slots" :=
               JArr [ JStr "2025-07-29 2:00 PM";
                      JStr "2025-07-30 10:00 AM";
                      JStr "2025-07-30 4:00 PM" ];
             "message" := JStr "Here are some available times" ]})
    200.
Proof. apply (availability_is_the_same_all_along _ _ ""); side. Defined.

End FurtherInstances.
